(** * Arduometer dual display hand counter: a model of the firmware

    The sketch [EE201_Arduometer_Dual_Display_Hand_Counter.ino] runs on an
    ATmega328P.  Its whole behaviour sits in a handful of global variables
    that the timer interrupt handler updates once per millisecond, and in the
    bytes it clocks out to the MAX7219 display driver.

    The model is a state-passing one: every C function that touches the
    globals or the pins becomes a function [state -> state].  The state holds
    the globals under their C names and the history of what was driven on the
    output pins and on the SPI data register.  [loop] only waits and touches
    neither, so it has no counterpart here. *)

From Stdlib Require Import ZArith List Bool Lia.
Import ListNotations.
Open Scope Z_scope.

(** ** Integer types of avr-gcc *)

Module AVR.

(** [char] is a signed 8-bit type; a value that does not fit is reduced
    modulo 256 into [-128, 127]. *)
Definition to_char (z : Z) : Z := (z + 128) mod 256 - 128.

(** [unsigned int] has 16 bits. *)
Definition to_uint (z : Z) : Z := z mod 65536.

(** An 8-bit I/O register such as SPDR keeps the low eight bits. *)
Definition to_reg8 (z : Z) : Z := z mod 256.

End AVR.

(** ** Pins and what is driven on them *)

Definition ISRMKR : Z := 2.
Definition PB0 : Z := 8.
Definition PB1 : Z := 9.
Definition CS : Z := 10.
Definition MOSI : Z := 11.
Definition MISO : Z := 12.
Definition SCLK : Z := 13.

Inductive level := LOW | HIGH.

(** One output action of the MCU: a pin driven to a level, or a byte loaded
    into SPDR and shifted out. *)
Inductive event :=
| DigitalWrite (pin : Z) (v : level)
| SpiByte (data : Z).

(** ** The globals *)

Record state := mkState {
  pbtns : Z;
  counterPB0 : Z;
  counterPB1 : Z;
  counterPB01 : Z;
  D0 : Z; D1 : Z; D2 : Z; D3 : Z;
  D4 : Z; D5 : Z; D6 : Z; D7 : Z;
  wire : list event   (* outputs so far, oldest first *)
}.

Definition set_pbtns v s :=
  mkState v (counterPB0 s) (counterPB1 s) (counterPB01 s)
          (D0 s) (D1 s) (D2 s) (D3 s) (D4 s) (D5 s) (D6 s) (D7 s) (wire s).
Definition set_counterPB0 v s :=
  mkState (pbtns s) v (counterPB1 s) (counterPB01 s)
          (D0 s) (D1 s) (D2 s) (D3 s) (D4 s) (D5 s) (D6 s) (D7 s) (wire s).
Definition set_counterPB1 v s :=
  mkState (pbtns s) (counterPB0 s) v (counterPB01 s)
          (D0 s) (D1 s) (D2 s) (D3 s) (D4 s) (D5 s) (D6 s) (D7 s) (wire s).
Definition set_counterPB01 v s :=
  mkState (pbtns s) (counterPB0 s) (counterPB1 s) v
          (D0 s) (D1 s) (D2 s) (D3 s) (D4 s) (D5 s) (D6 s) (D7 s) (wire s).
Definition set_D0 v s :=
  mkState (pbtns s) (counterPB0 s) (counterPB1 s) (counterPB01 s)
          v (D1 s) (D2 s) (D3 s) (D4 s) (D5 s) (D6 s) (D7 s) (wire s).
Definition set_D1 v s :=
  mkState (pbtns s) (counterPB0 s) (counterPB1 s) (counterPB01 s)
          (D0 s) v (D2 s) (D3 s) (D4 s) (D5 s) (D6 s) (D7 s) (wire s).
Definition set_D2 v s :=
  mkState (pbtns s) (counterPB0 s) (counterPB1 s) (counterPB01 s)
          (D0 s) (D1 s) v (D3 s) (D4 s) (D5 s) (D6 s) (D7 s) (wire s).
Definition set_D3 v s :=
  mkState (pbtns s) (counterPB0 s) (counterPB1 s) (counterPB01 s)
          (D0 s) (D1 s) (D2 s) v (D4 s) (D5 s) (D6 s) (D7 s) (wire s).
Definition set_D4 v s :=
  mkState (pbtns s) (counterPB0 s) (counterPB1 s) (counterPB01 s)
          (D0 s) (D1 s) (D2 s) (D3 s) v (D5 s) (D6 s) (D7 s) (wire s).
Definition set_D5 v s :=
  mkState (pbtns s) (counterPB0 s) (counterPB1 s) (counterPB01 s)
          (D0 s) (D1 s) (D2 s) (D3 s) (D4 s) v (D6 s) (D7 s) (wire s).
Definition set_D6 v s :=
  mkState (pbtns s) (counterPB0 s) (counterPB1 s) (counterPB01 s)
          (D0 s) (D1 s) (D2 s) (D3 s) (D4 s) (D5 s) v (D7 s) (wire s).
Definition set_D7 v s :=
  mkState (pbtns s) (counterPB0 s) (counterPB1 s) (counterPB01 s)
          (D0 s) (D1 s) (D2 s) (D3 s) (D4 s) (D5 s) (D6 s) v (wire s).
Definition emit (e : event) s :=
  mkState (pbtns s) (counterPB0 s) (counterPB1 s) (counterPB01 s)
          (D0 s) (D1 s) (D2 s) (D3 s) (D4 s) (D5 s) (D6 s) (D7 s)
          (wire s ++ [e]).

(** The globals as the C initialisers leave them, before [setup] runs:
    every digit is blank and nothing has been driven yet. *)
Definition power_on : state :=
  mkState 0 0 0 0 0x0F 0x0F 0x0F 0x0F 0x0F 0x0F 0x0F 0x0F [].

(** ** Platform calls *)

Definition digitalWrite (pin : Z) (v : level) (s : state) : state :=
  emit (DigitalWrite pin v) s.

(** [spi_transfer]: the byte goes to SPDR and the function waits for the
    SPIF flag.  The hardware raises the flag after eight clocks, so the wait
    ends; the byte read back is dropped by the only caller. *)
Definition spi_transfer (data : Z) (s : state) : state :=
  emit (SpiByte (AVR.to_reg8 data)) s.

(** ** Display driver *)

Definition display_load (dataH dataL : Z) (s : state) : state :=
  let dataH := AVR.to_char dataH in
  let dataL := AVR.to_char dataL in
  let s := digitalWrite CS LOW s in
  let s := spi_transfer dataH s in
  let s := spi_transfer dataL s in
  digitalWrite CS HIGH s.

Definition update_upper_display (s : state) : state :=
  let s := display_load 0x01 (D0 s) s in
  let s := display_load 0x02 (D1 s) s in
  let s := display_load 0x03 (D2 s) s in
  display_load 0x04 (D3 s) s.

Definition update_lower_display (s : state) : state :=
  let s := display_load 0x05 (D4 s) s in
  let s := display_load 0x06 (D5 s) s in
  let s := display_load 0x07 (D6 s) s in
  display_load 0x08 (D7 s) s.

Definition display_init (s : state) : state :=
  let s := display_load 0x09 0xFF s in
  let s := display_load 0x0A 0x0F s in
  let s := display_load 0x0B 0x07 s in
  let s := display_load 0x0C 0x01 s in
  let s := display_load 0x0F 0x00 s in
  let s := set_D0 0x0F s in
  let s := set_D1 0x0F s in
  let s := set_D2 0x0F s in
  let s := set_D3 0x00 s in
  let s := update_upper_display s in
  let s := set_D4 0x0F s in
  let s := set_D5 0x0F s in
  let s := set_D6 0x0F s in
  let s := set_D7 0x00 s in
  update_lower_display s.

(** ** Button actions *)

(** [D++] on a [char]. *)
Definition incr_char (d : Z) : Z := AVR.to_char (d + 1).

Definition actionPB0 (s : state) : state :=
  let s := set_D3 (incr_char (D3 s)) s in
  let s :=
    if D3 s >? 0x09 then
      let s := set_D3 0x00 s in
      let s := if D2 s =? 0x0F then set_D2 0x00 s else s in
      let s := set_D2 (incr_char (D2 s)) s in
      if D2 s >? 0x09 then
        let s := set_D2 0x00 s in
        let s := if D1 s =? 0x0F then set_D1 0x00 s else s in
        let s := set_D1 (incr_char (D1 s)) s in
        if D1 s >? 0x09 then
          let s := set_D1 0x00 s in
          let s := if D0 s =? 0x0F then set_D0 0x00 s else s in
          let s := set_D0 (incr_char (D0 s)) s in
          if D0 s >? 0x09 then
            let s := set_D3 0x0A s in
            let s := set_D2 0x0A s in
            let s := set_D1 0x0A s in
            set_D0 0x0A s
          else s
        else s
      else s
    else s in
  update_upper_display s.

Definition actionPB1 (s : state) : state :=
  let s := set_D7 (incr_char (D7 s)) s in
  let s :=
    if D7 s >? 0x09 then
      let s := set_D7 0x00 s in
      let s := if D6 s =? 0x0F then set_D6 0x00 s else s in
      let s := set_D6 (incr_char (D6 s)) s in
      if D6 s >? 0x09 then
        let s := set_D6 0x00 s in
        let s := if D5 s =? 0x0F then set_D5 0x00 s else s in
        let s := set_D5 (incr_char (D5 s)) s in
        if D5 s >? 0x09 then
          let s := set_D5 0x00 s in
          let s := if D4 s =? 0x0F then set_D4 0x00 s else s in
          let s := set_D4 (incr_char (D4 s)) s in
          if D4 s >? 0x09 then
            let s := set_D7 0x0A s in
            let s := set_D6 0x0A s in
            let s := set_D5 0x0A s in
            set_D4 0x0A s
          else s
        else s
      else s
    else s in
  update_lower_display s.

Definition actionPB01 (s : state) : state :=
  let s := set_D0 0x0F s in
  let s := set_D1 0x0F s in
  let s := set_D2 0x0F s in
  let s := set_D3 0x00 s in
  let s := update_upper_display s in
  let s := set_D4 0x0F s in
  let s := set_D5 0x0F s in
  let s := set_D6 0x0F s in
  let s := set_D7 0x00 s in
  update_lower_display s.

(** ** Start-up and the timer interrupt *)

(** [setup].  Pin directions and the SPI and timer registers configure the
    hardware and are not part of the state; the four levels it drives and the
    call of [display_init] are. *)
Definition setup (s : state) : state :=
  let s := digitalWrite ISRMKR LOW s in
  let s := digitalWrite CS HIGH s in
  let s := digitalWrite MOSI LOW s in
  let s := digitalWrite SCLK LOW s in
  display_init s.

(** [++] on an [unsigned int]. *)
Definition incr_uint (c : Z) : Z := AVR.to_uint (c + 1).

(** The body of [case 3] of the handler, from the first [if] on. *)
Definition released (s : state) : state :=
  let s := if counterPB0 s >? 50 then actionPB0 s else s in
  let s := if counterPB1 s >? 50 then actionPB1 s else s in
  let s := if counterPB01 s >? 1000 then actionPB01 s else s in
  let s := set_counterPB0 0 s in
  let s := set_counterPB1 0 s in
  set_counterPB01 0 s.

(** [ISR(TIMER0_COMPA_vect)]; [pinb] is what the read of PINB returns. *)
Definition ISR (pinb : Z) (s : state) : state :=
  let s := digitalWrite ISRMKR HIGH s in
  let s := set_pbtns (AVR.to_char (Z.land pinb 0x3)) s in
  let s :=
    match pbtns s with
    | 0 => set_counterPB01 (incr_uint (counterPB01 s)) s
    | 1 => set_counterPB1 (incr_uint (counterPB1 s)) s
    | 2 => set_counterPB0 (incr_uint (counterPB0 s)) s
    | 3 => released s
    | _ => s
    end in
  digitalWrite ISRMKR LOW s.

(** The device after [setup], and after a run of timer ticks, one PINB
    reading per tick.  The handler runs to completion and no tick falls
    inside [setup]: a hold counter needs more than fifty ticks before an
    action can fire, and [display_init] is over within the first one. *)
Definition boot : state := setup power_on.

Definition run (pinbs : list Z) (s : state) : state :=
  fold_left (fun s pinb => ISR pinb s) pinbs s.

(** The three guarded calls and the clearing of the hold counters are the
    four statements of [case 3]; [released] above runs them in this order. *)
Definition check_PB0 (s : state) : state :=
  if counterPB0 s >? 50 then actionPB0 s else s.
Definition check_PB1 (s : state) : state :=
  if counterPB1 s >? 50 then actionPB1 s else s.
Definition check_PB01 (s : state) : state :=
  if counterPB01 s >? 1000 then actionPB01 s else s.
Definition clear_counters (s : state) : state :=
  set_counterPB01 0 (set_counterPB1 0 (set_counterPB0 0 s)).

(** ** Vocabulary of the specification *)

(** A digit buffer: the four digit globals of one display, most significant
    first. *)
Definition digits : Type := Z * Z * Z * Z.

Definition upper (s : state) : digits := (D0 s, D1 s, D2 s, D3 s).
Definition lower (s : state) : digits := (D4 s, D5 s, D6 s, D7 s).

Definition with_upper (b : digits) (s : state) : state :=
  let '(a, b, c, d) := b in set_D3 d (set_D2 c (set_D1 b (set_D0 a s))).
Definition with_lower (b : digits) (s : state) : state :=
  let '(a, b, c, d) := b in set_D7 d (set_D6 c (set_D5 b (set_D4 a s))).

(** Code B symbols besides the numerals. *)
Definition blank : Z := 0x0F.
Definition dash : Z := 0x0A.

Definition is_symbol (d : Z) : bool :=
  ((0 <=? d) && (d <=? 9)) || (d =? blank) || (d =? dash).

Definition all_symbols (b : digits) : bool :=
  let '(a, b, c, d) := b in
  is_symbol a && is_symbol b && is_symbol c && is_symbol d.

(** Decimal rendering of [n] on four positions, leading zeros blanked. *)
Definition render (n : Z) : digits :=
  (if n <? 1000 then blank else n / 1000,
   if n <? 100 then blank else (n / 100) mod 10,
   if n <? 10 then blank else (n / 10) mod 10,
   n mod 10).

Definition zero_display : digits := (blank, blank, blank, 0).
Definition overflow : digits := (dash, dash, dash, dash).

(** What a counter that received [n] increments shows. *)
Definition shown (n : Z) : digits :=
  if n <=? 9999 then render n else overflow.

Definition digits_eqb (x y : digits) : bool :=
  let '(a, b, c, d) := x in
  let '(a', b', c', d') := y in
  (a =? a') && (b =? b') && (c =? c') && (d =? d').

(** The number a buffer stands for; the overflow display counts as 10000. *)
Definition numeral (d : Z) : Z := if d =? blank then 0 else d.

Definition value (b : digits) : Z :=
  if digits_eqb b overflow then 10000
  else let '(a, b, c, d) := b in
       1000 * numeral a + 100 * numeral b + 10 * numeral c + numeral d.

(** A buffer is well formed when it is a rendering or the overflow display. *)
Definition well_formed (b : digits) : Prop :=
  b = overflow \/ exists n, 0 <= n <= 9999 /\ b = render n.

(** The increment as a function of the buffer alone, read off the code. *)
Definition bump_upper (b : digits) : digits :=
  upper (actionPB0 (with_upper b power_on)).
Definition bump_lower (b : digits) : digits :=
  lower (actionPB1 (with_lower b power_on)).

(** Exhaustive check of the carry chain below 9999. *)
Definition carry_table (bump : digits -> digits) : bool :=
  forallb (fun k => let n := Z.of_nat k in
                    digits_eqb (bump (render n)) (render (n + 1)))
          (seq 0 (Z.to_nat 9999)).

(** One write to the MAX7219 as seen on the pins: CS low, address byte,
    data byte, CS high. *)
Definition frame (addr data : Z) : list event :=
  [DigitalWrite CS LOW; SpiByte addr; SpiByte data; DigitalWrite CS HIGH].

(** The byte that reaches SPDR for a [char] argument. *)
Definition sent (d : Z) : Z := AVR.to_reg8 (AVR.to_char d).

(** The four writes of one display, first register [base]. *)
Definition group (base : Z) (b : digits) : list event :=
  let '(w, x, y, z) := b in
  frame base (sent w) ++ frame (base + 1) (sent x) ++
  frame (base + 2) (sent y) ++ frame (base + 3) (sent z).

Definition config_writes : list event :=
  frame 0x09 0xFF ++ frame 0x0A 0x0F ++ frame 0x0B 0x07 ++
  frame 0x0C 0x01 ++ frame 0x0F 0x00.

(** States the device can be in: [boot] followed by any run of ticks. *)
Definition reachable (s : state) : Prop :=
  exists pinbs, s = run pinbs boot.

(** The two invariants of the running device. *)
Definition buffers_well_formed (s : state) : Prop :=
  well_formed (upper s) /\ well_formed (lower s).

Definition counters_in_range (s : state) : Prop :=
  0 <= counterPB0 s <= 65535 /\
  0 <= counterPB1 s <= 65535 /\
  0 <= counterPB01 s <= 65535.

(** A run of [n] ticks that all read the same port value. *)
Definition hold (pinb : Z) (n : Z) : list Z := repeat pinb (Z.to_nat n).

(** Sample states: the booted device with given hold counters, and a
    state whose two displays show four dashes. *)
Definition held (c0 c1 c01 : Z) : state :=
  set_counterPB01 c01 (set_counterPB1 c1 (set_counterPB0 c0 boot)).
Definition both_overflowed : state :=
  with_lower overflow (with_upper overflow power_on).

(** The handler up to the [switch] and after it, for a released sample. *)
Definition enter (s : state) : state :=
  set_pbtns 3 (digitalWrite ISRMKR HIGH s).
Definition leave (s : state) : state :=
  digitalWrite ISRMKR LOW (clear_counters s).

(** ** Vocabulary of the further properties *)

(** How many readings of a run fall into case [k] of the [switch]. *)
Definition tally (k : Z) (pinbs : list Z) : Z :=
  Z.of_nat (length (filter (fun p => Z.land p 3 =? k) pinbs)).

(** A gesture on the buttons: one button alone or both together.  The port
    reads 2 with only PB0 down, 1 with only PB1 down and 0 with both down
    (a button pulls its pin low). *)
Inductive button := OnlyPB0 | OnlyPB1 | BothButtons.

Definition reading (b : button) : Z :=
  match b with OnlyPB0 => 2 | OnlyPB1 => 1 | BothButtons => 0 end.

(** The gesture held for [d] ticks, then one tick with both released. *)
Definition press (g : button * Z) : list Z :=
  hold (reading (fst g)) (snd g) ++ [3].

(** The hand counter as its user thinks of it: two numbers, the first
    advanced by a press of PB0 longer than 50 ticks, the second by such a
    press of PB1, both cleared by a press of both buttons longer than 1000
    ticks. *)
Definition tell (c : Z * Z) (g : button * Z) : Z * Z :=
  match fst g with
  | OnlyPB0 => if snd g >? 50 then (fst c + 1, snd c) else c
  | OnlyPB1 => if snd g >? 50 then (fst c, snd c + 1) else c
  | BothButtons => if snd g >? 1000 then (0, 0) else c
  end.

Definition counted (gs : list (button * Z)) : Z * Z :=
  fold_left tell gs (0, 0).

(** The display driver as the code addresses it, seen from its pins (the
    comments of [display_load]: the high byte clocked in is the address, the
    low byte the data, and bringing CS high loads them).  The driver keeps
    the last two bytes shifted in; when CS is driven high after two bytes it
    takes them as one write, address first. *)
Definition max7219 : Type := (option Z * option Z) * list (Z * Z).

Definition max7219_step (c : max7219) (e : event) : max7219 :=
  match e with
  | SpiByte b => ((snd (fst c), Some b), snd c)
  | DigitalWrite pin HIGH =>
      if pin =? CS then
        match fst c with
        | (Some a, Some d) => ((None, None), snd c ++ [(a, d)])
        | _ => ((None, None), snd c)
        end
      else c
  | DigitalWrite _ LOW => c
  end.

(** The writes the driver has taken from what was driven so far. *)
Definition loads (l : list event) : list (Z * Z) :=
  snd (fold_left max7219_step l ((None, None), [])).

(** The content of register [a] after these writes: the last value written
    to it, if any. *)
Definition register (a : Z) (ws : list (Z * Z)) : option Z :=
  fold_left (fun r w => if fst w =? a then Some (snd w) else r) ws None.

Definition registers (base : Z) (ws : list (Z * Z)) :
  option Z * option Z * option Z * option Z :=
  (register base ws, register (base + 1) ws,
   register (base + 2) ws, register (base + 3) ws).

Definition on_display (b : digits) :
  option Z * option Z * option Z * option Z :=
  let '(w, x, y, z) := b in
  (Some (sent w), Some (sent x), Some (sent y), Some (sent z)).

Definition writes (base : Z) (b : digits) : list (Z * Z) :=
  let '(w, x, y, z) := b in
  [(base, sent w); (base + 1, sent x); (base + 2, sent y);
   (base + 3, sent z)].

(** The driver holds what the firmware holds: digit registers 1..4 the
    upper buffer, 5..8 the lower one, and the five configuration registers
    the values of [display_init]. *)
Definition in_sync (l : list event) (u lo : digits) : Prop :=
  registers 1 (loads l) = on_display u /\
  registers 5 (loads l) = on_display lo /\
  map (fun a => register a (loads l)) [0x09; 0x0A; 0x0B; 0x0C; 0x0F] =
    [Some 0xFF; Some 0x0F; Some 0x07; Some 0x01; Some 0x00].

(** The bus discipline of [display_load]: a byte travels only while CS is
    low, and CS goes high again after exactly two bytes.  [Selected n] is a
    transfer in progress with [n] bytes sent. *)
Inductive bus := Idle | Selected (n : nat) | Broken.

Definition bus_step (b : bus) (e : event) : bus :=
  match b, e with
  | Broken, _ => Broken
  | Idle, SpiByte _ => Broken
  | Idle, DigitalWrite pin v =>
      if pin =? CS then match v with LOW => Selected 0 | HIGH => Idle end
      else Idle
  | Selected n, SpiByte _ =>
      match n with
      | O => Selected 1
      | S O => Selected 2
      | _ => Broken
      end
  | Selected n, DigitalWrite pin v =>
      if pin =? CS then
        match v, n with
        | HIGH, S (S O) => Idle
        | _, _ => Broken
        end
      else Selected n
  end.

(** * Proofs *)

Arguments AVR.to_char : simpl never.
Arguments AVR.to_uint : simpl never.
Arguments AVR.to_reg8 : simpl never.
Arguments incr_char : simpl never.
Arguments incr_uint : simpl never.

(** ** Machine arithmetic *)

Lemma to_char_fits (z : Z) : -128 <= z <= 127 -> AVR.to_char z = z.
Proof.
  intros Hz. unfold AVR.to_char.
  rewrite Z.mod_small by lia. lia.
Qed.

Lemma to_uint_range (z : Z) : 0 <= AVR.to_uint z <= 65535.
Proof.
  unfold AVR.to_uint.
  pose proof (Z.mod_pos_bound z 65536 ltac:(lia)). lia.
Qed.

Lemma incr_uint_below (c : Z) : 0 <= c < 65535 -> incr_uint c = c + 1.
Proof.
  intros Hc. unfold incr_uint, AVR.to_uint.
  apply Z.mod_small. lia.
Qed.

Lemma sent_fits (d : Z) : 0 <= d <= 127 -> sent d = d.
Proof.
  intros Hd. unfold sent.
  rewrite to_char_fits by lia.
  unfold AVR.to_reg8. apply Z.mod_small. lia.
Qed.

(** The two button bits: a masked port reading is one of the four cases of
    the [switch]. *)
Lemma sample_cases (pinb : Z) :
  Z.land pinb 3 = 0 \/ Z.land pinb 3 = 1 \/
  Z.land pinb 3 = 2 \/ Z.land pinb 3 = 3.
Proof.
  assert (E : Z.land pinb 3 = pinb mod 4) by (apply (Z.land_ones pinb 2); lia).
  rewrite E.
  pose proof (Z.mod_pos_bound pinb 4 ltac:(lia)). lia.
Qed.

(** ** What the display functions leave alone and what they send *)

Lemma display_load_wire (a d : Z) (s : state) :
  wire (display_load a d s) = wire s ++ frame (sent a) (sent d).
Proof.
  unfold display_load, digitalWrite, spi_transfer, emit, frame, sent. cbn.
  now rewrite <- !app_assoc.
Qed.

Lemma update_upper_display_wire (s : state) :
  wire (update_upper_display s) = wire s ++ group 1 (upper s).
Proof.
  unfold update_upper_display, group, upper.
  cbv zeta. rewrite !display_load_wire. cbn -[frame sent].
  rewrite !sent_fits by lia. now rewrite <- !app_assoc.
Qed.

Lemma update_lower_display_wire (s : state) :
  wire (update_lower_display s) = wire s ++ group 5 (lower s).
Proof.
  unfold update_lower_display, group, lower.
  cbv zeta. rewrite !display_load_wire. cbn -[frame sent].
  rewrite !sent_fits by lia. now rewrite <- !app_assoc.
Qed.

(** Case split on a conditional whose test holds no other conditional, so
    that the tests met are always about plain digit values. *)
Ltac split_if :=
  match goal with
  | |- context [if ?c then _ else _] =>
      lazymatch c with
      | context [if _ then _ else _] => fail
      | _ => destruct c eqn:?
      end
  end.
Ltac split_ifs := cbn; repeat (split_if; cbn).

(** ** The increment seen as a function of one buffer *)

(** [actionPB0] rewrites the upper buffer with [bump_upper], sends it, and
    does nothing else. *)
Lemma actionPB0_eq (s : state) :
  actionPB0 s = update_upper_display (with_upper (bump_upper (upper s)) s).
Proof.
  destruct s. unfold bump_upper, actionPB0, upper, with_upper.
  split_ifs; reflexivity.
Qed.

Lemma actionPB1_eq (s : state) :
  actionPB1 s = update_lower_display (with_lower (bump_lower (lower s)) s).
Proof.
  destruct s. unfold bump_lower, actionPB1, lower, with_lower.
  split_ifs; reflexivity.
Qed.

Lemma bump_lower_upper (b : digits) : bump_lower b = bump_upper b.
Proof.
  destruct b as [[[a b] c] d].
  unfold bump_lower, bump_upper, actionPB0, actionPB1, upper, lower.
  split_ifs; reflexivity.
Qed.

Lemma actionPB0_upper (s : state) :
  upper (actionPB0 s) = bump_upper (upper s).
Proof.
  rewrite actionPB0_eq. destruct (bump_upper (upper s)) as [[[a b] c] d].
  reflexivity.
Qed.

Lemma actionPB1_lower (s : state) :
  lower (actionPB1 s) = bump_lower (lower s).
Proof.
  rewrite actionPB1_eq. destruct (bump_lower (lower s)) as [[[a b] c] d].
  reflexivity.
Qed.

Lemma actionPB0_frame (s : state) :
  pbtns (actionPB0 s) = pbtns s /\
  counterPB0 (actionPB0 s) = counterPB0 s /\
  counterPB1 (actionPB0 s) = counterPB1 s /\
  counterPB01 (actionPB0 s) = counterPB01 s /\
  lower (actionPB0 s) = lower s.
Proof.
  rewrite actionPB0_eq. destruct (bump_upper (upper s)) as [[[a b] c] d].
  repeat split.
Qed.

Lemma actionPB1_frame (s : state) :
  pbtns (actionPB1 s) = pbtns s /\
  counterPB0 (actionPB1 s) = counterPB0 s /\
  counterPB1 (actionPB1 s) = counterPB1 s /\
  counterPB01 (actionPB1 s) = counterPB01 s /\
  upper (actionPB1 s) = upper s.
Proof.
  rewrite actionPB1_eq. destruct (bump_lower (lower s)) as [[[a b] c] d].
  repeat split.
Qed.

Lemma actionPB0_wire (s : state) :
  wire (actionPB0 s) = wire s ++ group 1 (bump_upper (upper s)).
Proof.
  rewrite actionPB0_eq, update_upper_display_wire.
  destruct (bump_upper (upper s)) as [[[a b] c] d]. reflexivity.
Qed.

Lemma actionPB1_wire (s : state) :
  wire (actionPB1 s) = wire s ++ group 5 (bump_lower (lower s)).
Proof.
  rewrite actionPB1_eq, update_lower_display_wire.
  destruct (bump_lower (lower s)) as [[[a b] c] d]. reflexivity.
Qed.

Lemma actionPB01_digits (s : state) :
  upper (actionPB01 s) = zero_display /\ lower (actionPB01 s) = zero_display.
Proof. split; reflexivity. Qed.

(** Views of a state after a buffer was overwritten.  They are stated as
    equations and used by rewriting. *)
Lemma wire_with_upper (b : digits) (s : state) :
  wire (with_upper b s) = wire s.
Proof. destruct b as [[[a b] c] d]. reflexivity. Qed.

Lemma wire_with_lower (b : digits) (s : state) :
  wire (with_lower b s) = wire s.
Proof. destruct b as [[[a b] c] d]. reflexivity. Qed.

Lemma upper_with_upper (b : digits) (s : state) :
  upper (with_upper b s) = b.
Proof. destruct b as [[[a b] c] d]. reflexivity. Qed.

Lemma lower_with_lower (b : digits) (s : state) :
  lower (with_lower b s) = b.
Proof. destruct b as [[[a b] c] d]. reflexivity. Qed.

Lemma actionPB01_eq (s : state) :
  actionPB01 s =
  update_lower_display
    (with_lower zero_display
       (update_upper_display (with_upper zero_display s))).
Proof. reflexivity. Qed.

Lemma actionPB01_wire (s : state) :
  wire (actionPB01 s) =
  wire s ++ group 1 zero_display ++ group 5 zero_display.
Proof.
  rewrite actionPB01_eq, update_lower_display_wire.
  rewrite wire_with_lower, lower_with_lower.
  rewrite update_upper_display_wire.
  rewrite wire_with_upper, upper_with_upper.
  now rewrite <- app_assoc.
Qed.

Lemma display_init_eq (s : state) :
  display_init s =
  actionPB01
    (display_load 0x0F 0x00
       (display_load 0x0C 0x01
          (display_load 0x0B 0x07
             (display_load 0x0A 0x0F (display_load 0x09 0xFF s))))).
Proof. reflexivity. Qed.

Lemma display_init_wire (s : state) :
  wire (display_init s) =
  wire s ++ config_writes ++ group 1 zero_display ++ group 5 zero_display.
Proof.
  rewrite display_init_eq, actionPB01_wire, !display_load_wire.
  unfold config_writes. rewrite <- !app_assoc. reflexivity.
Qed.

(** A call of an action always shows on the pins: four digit writes for
    an increment, eight for the reset. *)
Lemma actions_are_visible (s : state) :
  length (wire (actionPB0 s)) = (length (wire s) + 16)%nat /\
  length (wire (actionPB1 s)) = (length (wire s) + 16)%nat /\
  length (wire (actionPB01 s)) = (length (wire s) + 32)%nat.
Proof.
  rewrite actionPB0_wire, actionPB1_wire, actionPB01_wire.
  destruct (bump_upper (upper s)) as [[[a b] c] d].
  destruct (bump_lower (lower s)) as [[[a' b'] c'] d'].
  rewrite !length_app. repeat split.
Qed.

(** ** The handler, one equation per case of the [switch] *)

Lemma released_eq (s : state) :
  released s = clear_counters (check_PB01 (check_PB1 (check_PB0 s))).
Proof. reflexivity. Qed.

Lemma ISR_both_pressed (pinb : Z) (s : state) :
  Z.land pinb 3 = 0 ->
  ISR pinb s =
  digitalWrite ISRMKR LOW
    (set_counterPB01 (incr_uint (counterPB01 s))
       (set_pbtns 0 (digitalWrite ISRMKR HIGH s))).
Proof.
  intros H. unfold ISR. cbv zeta. cbn [pbtns set_pbtns].
  rewrite H. reflexivity.
Qed.

Lemma ISR_only_PB1 (pinb : Z) (s : state) :
  Z.land pinb 3 = 1 ->
  ISR pinb s =
  digitalWrite ISRMKR LOW
    (set_counterPB1 (incr_uint (counterPB1 s))
       (set_pbtns 1 (digitalWrite ISRMKR HIGH s))).
Proof.
  intros H. unfold ISR. cbv zeta. cbn [pbtns set_pbtns].
  rewrite H. reflexivity.
Qed.

Lemma ISR_only_PB0 (pinb : Z) (s : state) :
  Z.land pinb 3 = 2 ->
  ISR pinb s =
  digitalWrite ISRMKR LOW
    (set_counterPB0 (incr_uint (counterPB0 s))
       (set_pbtns 2 (digitalWrite ISRMKR HIGH s))).
Proof.
  intros H. unfold ISR. cbv zeta. cbn [pbtns set_pbtns].
  rewrite H. reflexivity.
Qed.

Lemma ISR_released (pinb : Z) (s : state) :
  Z.land pinb 3 = 3 ->
  ISR pinb s = leave (check_PB01 (check_PB1 (check_PB0 (enter s)))).
Proof.
  intros H. unfold ISR. cbv zeta. cbn [pbtns set_pbtns].
  rewrite H. reflexivity.
Qed.

(** None of the three actions writes a hold counter, so each test of
    [case 3] reads the value the counter had when the handler was entered. *)
Lemma check_PB0_counters (s : state) :
  counterPB0 (check_PB0 s) = counterPB0 s /\
  counterPB1 (check_PB0 s) = counterPB1 s /\
  counterPB01 (check_PB0 s) = counterPB01 s.
Proof.
  unfold check_PB0. destruct (counterPB0 s >? 50).
  - pose proof (actionPB0_frame s). tauto.
  - tauto.
Qed.

Lemma check_PB1_counters (s : state) :
  counterPB0 (check_PB1 s) = counterPB0 s /\
  counterPB1 (check_PB1 s) = counterPB1 s /\
  counterPB01 (check_PB1 s) = counterPB01 s.
Proof.
  unfold check_PB1. destruct (counterPB1 s >? 50).
  - pose proof (actionPB1_frame s). tauto.
  - tauto.
Qed.

Lemma enter_counters (s : state) :
  counterPB0 (enter s) = counterPB0 s /\
  counterPB1 (enter s) = counterPB1 s /\
  counterPB01 (enter s) = counterPB01 s.
Proof. repeat split. Qed.

Lemma enter_view (s : state) :
  upper (enter s) = upper s /\ lower (enter s) = lower s /\
  wire (enter s) = wire s ++ [DigitalWrite ISRMKR HIGH].
Proof. repeat split. Qed.

Lemma leave_view (s : state) :
  upper (leave s) = upper s /\ lower (leave s) = lower s /\
  wire (leave s) = wire s ++ [DigitalWrite ISRMKR LOW].
Proof. repeat split. Qed.

Lemma leave_counters (s : state) :
  counterPB0 (leave s) = 0 /\ counterPB1 (leave s) = 0 /\
  counterPB01 (leave s) = 0.
Proof. repeat split. Qed.

(** The tests of a released tick, resolved against the counters on entry. *)
Lemma released_tick (pinb : Z) (s : state) :
  Z.land pinb 3 = 3 ->
  ISR pinb s =
  leave
    ((if counterPB01 s >? 1000 then actionPB01 else id)
       ((if counterPB1 s >? 50 then actionPB1 else id)
          ((if counterPB0 s >? 50 then actionPB0 else id) (enter s)))).
Proof.
  intros H. rewrite (ISR_released pinb s H).
  destruct (check_PB0_counters (enter s)) as (_ & E1 & E01).
  destruct (check_PB1_counters (check_PB0 (enter s))) as (_ & _ & F01).
  destruct (enter_counters s) as (G0 & G1 & G01).
  unfold check_PB01. rewrite F01, E01, G01.
  unfold check_PB1. rewrite E1, G1.
  unfold check_PB0. rewrite G0.
  destruct (counterPB01 s >? 1000), (counterPB1 s >? 50),
    (counterPB0 s >? 50); reflexivity.
Qed.

(** ** The carry chain *)

Lemma digits_eqb_eq (x y : digits) : digits_eqb x y = true -> x = y.
Proof.
  destruct x as [[[a b] c] d], y as [[[a' b'] c'] d'].
  unfold digits_eqb. rewrite !andb_true_iff, !Z.eqb_eq.
  intros [[[-> ->] ->] ->]. reflexivity.
Qed.

(** A table that checks out covers every count below 9999. *)
Lemma carry_table_sound (bump : digits -> digits) :
  carry_table bump = true ->
  forall n, 0 <= n < 9999 -> bump (render n) = render (n + 1).
Proof.
  unfold carry_table. rewrite forallb_forall. intros T n Hn.
  apply digits_eqb_eq.
  specialize (T (Z.to_nat n)). cbv zeta in T.
  rewrite Z2Nat.id in T by lia.
  apply T, in_seq. lia.
Qed.

Lemma carry_table_upper : carry_table bump_upper = true.
Proof. vm_compute. reflexivity. Qed.

(** Below 9999 the increment turns the rendering of [n] into that of
    [n + 1]. *)
Lemma bump_upper_render (n : Z) :
  0 <= n < 9999 -> bump_upper (render n) = render (n + 1).
Proof. exact (carry_table_sound bump_upper carry_table_upper n). Qed.

Lemma bump_upper_9999 : bump_upper (render 9999) = overflow.
Proof. vm_compute. reflexivity. Qed.

Lemma bump_upper_overflow : bump_upper overflow = overflow.
Proof. vm_compute. reflexivity. Qed.

Lemma bump_upper_shown (n : Z) :
  0 <= n -> bump_upper (shown n) = shown (n + 1).
Proof.
  intros Hn. unfold shown.
  destruct (Z.leb_spec n 9999), (Z.leb_spec (n + 1) 9999); try lia.
  - apply bump_upper_render. lia.
  - replace n with 9999 by lia. apply bump_upper_9999.
  - apply bump_upper_overflow.
Qed.

(** Repeated presses of one button. *)
Lemma iter_actionPB0 (n : nat) (s : state) :
  upper (Nat.iter n actionPB0 s) = Nat.iter n bump_upper (upper s) /\
  lower (Nat.iter n actionPB0 s) = lower s.
Proof.
  induction n as [|n [IHu IHl]]; [split; reflexivity|].
  rewrite !Nat.iter_succ, actionPB0_upper, IHu. split; [reflexivity|].
  destruct (actionPB0_frame (Nat.iter n actionPB0 s)) as (_ & _ & _ & _ & E).
  now rewrite E.
Qed.

Lemma iter_actionPB1 (n : nat) (s : state) :
  lower (Nat.iter n actionPB1 s) = Nat.iter n bump_upper (lower s) /\
  upper (Nat.iter n actionPB1 s) = upper s.
Proof.
  induction n as [|n [IHl IHu]]; [split; reflexivity|].
  rewrite !Nat.iter_succ, actionPB1_lower, bump_lower_upper, IHl.
  split; [reflexivity|].
  destruct (actionPB1_frame (Nat.iter n actionPB1 s)) as (_ & _ & _ & _ & E).
  now rewrite E.
Qed.

Lemma iter_bump_shown (n : nat) :
  Nat.iter n bump_upper zero_display = shown (Z.of_nat n).
Proof.
  induction n as [|n IH]; [reflexivity|].
  rewrite Nat.iter_succ, IH, bump_upper_shown by lia.
  f_equal. lia.
Qed.

(** ** Renderings *)

Lemma render_symbols (n : Z) :
  0 <= n <= 9999 -> all_symbols (render n) = true.
Proof.
  intros Hn. unfold all_symbols, render, is_symbol, blank, dash.
  pose proof (Z.mod_pos_bound n 10 ltac:(lia)).
  pose proof (Z.mod_pos_bound (n / 10) 10 ltac:(lia)).
  pose proof (Z.mod_pos_bound (n / 100) 10 ltac:(lia)).
  assert (0 <= n / 1000 <= 9).
  { split; [apply Z.div_pos; lia|].
    apply Z.lt_succ_r, Z.div_lt_upper_bound; lia. }
  destruct (n <? 1000), (n <? 100), (n <? 10);
    rewrite !andb_true_iff, !orb_true_iff;
    repeat split; try (left; left; lia); auto.
Qed.

Lemma numeral_digit (d : Z) : 0 <= d <= 9 -> numeral d = d.
Proof.
  intros Hd. unfold numeral, blank.
  destruct (Z.eqb_spec d 15); lia.
Qed.

(** Reading a rendering back gives the number rendered. *)
Lemma value_render (n : Z) : 0 <= n <= 9999 -> value (render n) = n.
Proof.
  intros Hn. unfold value, render, digits_eqb, overflow.
  pose proof (Z.mod_pos_bound n 10 ltac:(lia)).
  pose proof (Z.mod_pos_bound (n / 10) 10 ltac:(lia)).
  pose proof (Z.mod_pos_bound (n / 100) 10 ltac:(lia)).
  assert (0 <= n / 1000 <= 9).
  { split; [apply Z.div_pos; lia|].
    apply Z.lt_succ_r, Z.div_lt_upper_bound; lia. }
  replace (n mod 10 =? dash) with false
    by (symmetry; apply Z.eqb_neq; unfold dash; lia).
  rewrite !andb_false_r.
  rewrite (numeral_digit (n mod 10)) by lia.
  destruct (Z.ltb_spec n 1000), (Z.ltb_spec n 100), (Z.ltb_spec n 10);
    try lia;
    change (numeral blank) with 0;
    rewrite ?numeral_digit by lia;
    Z.to_euclidean_division_equations; lia.
Qed.

Lemma value_overflow : value overflow = 10000.
Proof. reflexivity. Qed.

Lemma well_formed_symbols (b : digits) :
  well_formed b -> all_symbols b = true.
Proof.
  intros [-> | (n & Hn & ->)]; [reflexivity | now apply render_symbols].
Qed.

Lemma well_formed_zero : well_formed zero_display.
Proof. right. exists 0. split; [lia | reflexivity]. Qed.

Lemma bump_upper_well_formed (b : digits) :
  well_formed b -> well_formed (bump_upper b).
Proof.
  intros [-> | (n & Hn & ->)].
  - left. apply bump_upper_overflow.
  - destruct (Z.eq_dec n 9999) as [-> | Hne].
    + left. apply bump_upper_9999.
    + right. exists (n + 1). split; [lia|]. apply bump_upper_render. lia.
Qed.

(** On well-formed buffers the increment adds one and stops at 10000. *)
Lemma bump_upper_value (b : digits) :
  well_formed b -> value (bump_upper b) = Z.min (value b + 1) 10000.
Proof.
  intros [-> | (n & Hn & ->)].
  - rewrite bump_upper_overflow, value_overflow. reflexivity.
  - destruct (Z.eq_dec n 9999) as [-> | Hne].
    + rewrite bump_upper_9999, value_overflow, value_render by lia.
      reflexivity.
    + rewrite bump_upper_render, !value_render by lia. lia.
Qed.

Lemma display_init_digits (s : state) :
  upper (display_init s) = zero_display /\
  lower (display_init s) = zero_display.
Proof. rewrite display_init_eq. apply actionPB01_digits. Qed.

Lemma presses_PB0 (s : state) (n : nat) :
  upper (Nat.iter n actionPB0 (display_init s)) = shown (Z.of_nat n) /\
  lower (Nat.iter n actionPB0 (display_init s)) = lower (display_init s).
Proof.
  destruct (iter_actionPB0 n (display_init s)) as [Eu El].
  destruct (display_init_digits s) as [Zu _].
  split; [|exact El].
  rewrite Eu, Zu. apply iter_bump_shown.
Qed.

Lemma presses_PB1 (s : state) (n : nat) :
  lower (Nat.iter n actionPB1 (display_init s)) = shown (Z.of_nat n) /\
  upper (Nat.iter n actionPB1 (display_init s)) = upper (display_init s).
Proof.
  destruct (iter_actionPB1 n (display_init s)) as [El Eu].
  destruct (display_init_digits s) as [_ Zl].
  split; [|exact Eu].
  rewrite El, Zl. apply iter_bump_shown.
Qed.

Lemma well_formed_value (b : digits) : well_formed b -> 0 <= value b <= 10000.
Proof.
  intros [-> | (n & Hn & ->)].
  - rewrite value_overflow. lia.
  - rewrite value_render by lia. lia.
Qed.

(** Once past 9999 presses the display stays on four dashes. *)
Lemma shown_saturated (n : nat) :
  shown (Z.of_nat (Z.to_nat 10000 + n)) = overflow.
Proof.
  unfold shown.
  destruct (Z.leb_spec (Z.of_nat (Z.to_nat 10000 + n)) 9999); [lia|].
  reflexivity.
Qed.

(** ** Thresholds *)

Lemma check_PB0_cases (s : state) :
  (counterPB0 s <= 50 -> check_PB0 s = s) /\
  (50 < counterPB0 s -> check_PB0 s = actionPB0 s).
Proof.
  unfold check_PB0. destruct (Z.gtb_spec (counterPB0 s) 50); split;
    intros; (reflexivity || lia).
Qed.

Lemma check_PB1_cases (s : state) :
  (counterPB1 s <= 50 -> check_PB1 s = s) /\
  (50 < counterPB1 s -> check_PB1 s = actionPB1 s).
Proof.
  unfold check_PB1. destruct (Z.gtb_spec (counterPB1 s) 50); split;
    intros; (reflexivity || lia).
Qed.

Lemma check_PB01_cases (s : state) :
  (counterPB01 s <= 1000 -> check_PB01 s = s) /\
  (1000 < counterPB01 s -> check_PB01 s = actionPB01 s).
Proof.
  unfold check_PB01. destruct (Z.gtb_spec (counterPB01 s) 1000); split;
    intros; (reflexivity || lia).
Qed.

(** The counters seen by the second and third test are those on entry. *)
Lemma counters_at_PB1_test (s : state) :
  counterPB1 (check_PB0 (enter s)) = counterPB1 s.
Proof.
  destruct (check_PB0_counters (enter s)) as (_ & E & _). rewrite E.
  apply enter_counters.
Qed.

Lemma counters_at_PB01_test (s : state) :
  counterPB01 (check_PB1 (check_PB0 (enter s))) = counterPB01 s.
Proof.
  destruct (check_PB1_counters (check_PB0 (enter s))) as (_ & _ & E).
  destruct (check_PB0_counters (enter s)) as (_ & _ & F).
  rewrite E, F. apply enter_counters.
Qed.

(** ** Invariants of the running device *)

Lemma released_tick_counters (pinb : Z) (s : state) :
  Z.land pinb 3 = 3 ->
  counterPB0 (ISR pinb s) = 0 /\
  counterPB1 (ISR pinb s) = 0 /\
  counterPB01 (ISR pinb s) = 0.
Proof.
  intros H. rewrite (ISR_released pinb s H). apply leave_counters.
Qed.

(** What every tick preserves holds after any run of ticks. *)
Lemma run_preserves (P : state -> Prop) :
  (forall pinb s, P s -> P (ISR pinb s)) ->
  forall pinbs s, P s -> P (run pinbs s).
Proof.
  intros Step pinbs. unfold run.
  induction pinbs as [|pinb pinbs IH]; intros s Hs; [exact Hs|].
  cbn [fold_left]. apply IH, Step, Hs.
Qed.

Lemma reachable_ind (P : state -> Prop) :
  P boot ->
  (forall pinb s, P s -> P (ISR pinb s)) ->
  forall s, reachable s -> P s.
Proof.
  intros Hb Step s [pinbs ->]. now apply run_preserves.
Qed.

(** A tick that reads a button pressed leaves the two buffers alone. *)
Lemma pressed_tick_digits (pinb : Z) (s : state) :
  Z.land pinb 3 <> 3 ->
  upper (ISR pinb s) = upper s /\ lower (ISR pinb s) = lower s.
Proof.
  intros H.
  destruct (sample_cases pinb) as [E | [E | [E | E]]]; [| | |contradiction].
  - rewrite (ISR_both_pressed pinb s E). split; reflexivity.
  - rewrite (ISR_only_PB1 pinb s E). split; reflexivity.
  - rewrite (ISR_only_PB0 pinb s E). split; reflexivity.
Qed.

Lemma check_PB0_well_formed (s : state) :
  buffers_well_formed s -> buffers_well_formed (check_PB0 s).
Proof.
  intros [Wu Wl]. unfold check_PB0.
  destruct (counterPB0 s >? 50); [|now split].
  destruct (actionPB0_frame s) as (_ & _ & _ & _ & El).
  split; [rewrite actionPB0_upper | rewrite El; exact Wl].
  now apply bump_upper_well_formed.
Qed.

Lemma check_PB1_well_formed (s : state) :
  buffers_well_formed s -> buffers_well_formed (check_PB1 s).
Proof.
  intros [Wu Wl]. unfold check_PB1.
  destruct (counterPB1 s >? 50); [|now split].
  destruct (actionPB1_frame s) as (_ & _ & _ & _ & Eu).
  split; [rewrite Eu; exact Wu | rewrite actionPB1_lower, bump_lower_upper].
  now apply bump_upper_well_formed.
Qed.

Lemma check_PB01_well_formed (s : state) :
  buffers_well_formed s -> buffers_well_formed (check_PB01 s).
Proof.
  intros W. unfold check_PB01.
  destruct (counterPB01 s >? 1000); [|exact W].
  destruct (actionPB01_digits s) as [Eu El].
  split; [rewrite Eu | rewrite El]; apply well_formed_zero.
Qed.

Lemma ISR_well_formed (pinb : Z) (s : state) :
  buffers_well_formed s -> buffers_well_formed (ISR pinb s).
Proof.
  intros W.
  destruct (Z.eq_dec (Z.land pinb 3) 3) as [E | E].
  - rewrite (ISR_released pinb s E).
    assert (buffers_well_formed (enter s)) as W0 by exact W.
    apply check_PB0_well_formed, check_PB1_well_formed,
      check_PB01_well_formed in W0.
    exact W0.
  - destruct (pressed_tick_digits pinb s E) as [Eu El].
    unfold buffers_well_formed. now rewrite Eu, El.
Qed.

Lemma boot_eq :
  boot =
  display_init
    (digitalWrite SCLK LOW
       (digitalWrite MOSI LOW
          (digitalWrite CS HIGH (digitalWrite ISRMKR LOW power_on)))).
Proof. reflexivity. Qed.

Lemma boot_well_formed : buffers_well_formed boot.
Proof.
  unfold buffers_well_formed. rewrite boot_eq.
  destruct (display_init_digits
              (digitalWrite SCLK LOW
                 (digitalWrite MOSI LOW
                    (digitalWrite CS HIGH
                       (digitalWrite ISRMKR LOW power_on))))) as [Eu El].
  rewrite Eu, El. split; apply well_formed_zero.
Qed.

Lemma boot_counters_in_range : counters_in_range boot.
Proof. unfold counters_in_range. rewrite boot_eq. cbn. lia. Qed.

Lemma ISR_counters_in_range (pinb : Z) (s : state) :
  counters_in_range s -> counters_in_range (ISR pinb s).
Proof.
  intros (R0 & R1 & R01). unfold counters_in_range.
  destruct (sample_cases pinb) as [E | [E | [E | E]]].
  - rewrite (ISR_both_pressed pinb s E).
    cbn [counterPB0 counterPB1 counterPB01 digitalWrite emit
         set_counterPB01 set_pbtns].
    pose proof (to_uint_range (counterPB01 s + 1)). unfold incr_uint. lia.
  - rewrite (ISR_only_PB1 pinb s E).
    cbn [counterPB0 counterPB1 counterPB01 digitalWrite emit
         set_counterPB1 set_pbtns].
    pose proof (to_uint_range (counterPB1 s + 1)). unfold incr_uint. lia.
  - rewrite (ISR_only_PB0 pinb s E).
    cbn [counterPB0 counterPB1 counterPB01 digitalWrite emit
         set_counterPB0 set_pbtns].
    pose proof (to_uint_range (counterPB0 s + 1)). unfold incr_uint. lia.
  - destruct (released_tick_counters pinb s E) as (-> & -> & ->). lia.
Qed.

(** * The claims *)

(** C8.  [display_init] sends the five configuration writes in the order
    decode mode (0x09), intensity (0x0A), scan limit (0x0B), shutdown
    register set to normal operation (0x0C), display test off (0x0F); only
    then come the eight digit writes, which carry blank, blank, blank, zero
    for each display, and the eight digit globals hold that pattern.  When the
    device boots, nothing but the four idle pin levels of [setup] precedes
    them. *)
Theorem display_init_sequence (s : state) :
  wire (display_init s) =
    wire s ++
    frame 0x09 0xFF ++ frame 0x0A 0x0F ++ frame 0x0B 0x07 ++
    frame 0x0C 0x01 ++ frame 0x0F 0x00 ++
    frame 1 blank ++ frame 2 blank ++ frame 3 blank ++ frame 4 0 ++
    frame 5 blank ++ frame 6 blank ++ frame 7 blank ++ frame 8 0 /\
  upper (display_init s) = (blank, blank, blank, 0) /\
  lower (display_init s) = (blank, blank, blank, 0) /\
  wire boot =
    [DigitalWrite ISRMKR LOW; DigitalWrite CS HIGH;
     DigitalWrite MOSI LOW; DigitalWrite SCLK LOW] ++
    frame 0x09 0xFF ++ frame 0x0A 0x0F ++ frame 0x0B 0x07 ++
    frame 0x0C 0x01 ++ frame 0x0F 0x00 ++
    frame 1 blank ++ frame 2 blank ++ frame 3 blank ++ frame 4 0 ++
    frame 5 blank ++ frame 6 blank ++ frame 7 blank ++ frame 8 0.
Proof.
  split; [|split; [|split]].
  - rewrite display_init_wire. f_equal.
  - apply display_init_digits.
  - apply display_init_digits.
  - vm_compute. reflexivity.
Qed.

(** C7.  Whatever the state before, [actionPB01] leaves blank, blank,
    blank, zero in both buffers and sends the four digits of the upper
    display and then the four of the lower one. *)
Theorem reset_clears_both (s : state) :
  upper (actionPB01 s) = (blank, blank, blank, 0) /\
  lower (actionPB01 s) = (blank, blank, blank, 0) /\
  wire (actionPB01 s) =
    wire s ++
    frame 1 blank ++ frame 2 blank ++ frame 3 blank ++ frame 4 0 ++
    frame 5 blank ++ frame 6 blank ++ frame 7 blank ++ frame 8 0.
Proof.
  split; [|split].
  - apply actionPB01_digits.
  - apply actionPB01_digits.
  - rewrite actionPB01_wire. f_equal.
Qed.

(** C1.  After [display_init], [n] calls of [actionPB0] leave in the upper
    buffer the decimal rendering of [n] with leading blanks when [n <= 9999]
    and four dashes when [n >= 10000]; the lower buffer still holds what
    [display_init] put there. *)
Theorem increments_upper_display (s : state) (n : nat) :
  upper (Nat.iter n actionPB0 (display_init s)) =
    (if Z.of_nat n <=? 9999 then render (Z.of_nat n) else overflow) /\
  lower (Nat.iter n actionPB0 (display_init s)) = lower (display_init s).
Proof.
  destruct (iter_actionPB0 n (display_init s)) as [Eu El].
  destruct (display_init_digits s) as [Zu _].
  split; [|exact El].
  rewrite Eu, Zu.
  change (Nat.iter n bump_upper zero_display = shown (Z.of_nat n)).
  apply iter_bump_shown.
Qed.

(** C2.  A buffer showing four dashes still shows four dashes after its
    increment; on a well-formed buffer the increment never lowers the value
    read off the display (four dashes reading as 10000); after 9999 presses
    the display shows 9999, one more press gives four dashes, and so does
    any number of further presses, 1000 among them.  The same holds for the
    lower display and [actionPB1]. *)
Theorem increment_saturates (s : state) (k : nat) :
  (upper s = overflow -> upper (actionPB0 s) = overflow) /\
  (lower s = overflow -> lower (actionPB1 s) = overflow) /\
  (well_formed (upper s) ->
   value (upper s) <= value (upper (actionPB0 s))) /\
  (well_formed (lower s) ->
   value (lower s) <= value (lower (actionPB1 s))) /\
  upper (Nat.iter (Z.to_nat 9999) actionPB0 (display_init s)) = (9, 9, 9, 9) /\
  upper (Nat.iter (Z.to_nat 10000) actionPB0 (display_init s)) = overflow /\
  upper (Nat.iter (Z.to_nat 10000 + Z.to_nat 1000) actionPB0 (display_init s))
    = overflow /\
  upper (Nat.iter (Z.to_nat 10000 + k) actionPB0 (display_init s))
    = overflow /\
  lower (Nat.iter (Z.to_nat 9999) actionPB1 (display_init s)) = (9, 9, 9, 9) /\
  lower (Nat.iter (Z.to_nat 10000) actionPB1 (display_init s)) = overflow /\
  lower (Nat.iter (Z.to_nat 10000 + Z.to_nat 1000) actionPB1 (display_init s))
    = overflow /\
  lower (Nat.iter (Z.to_nat 10000 + k) actionPB1 (display_init s))
    = overflow.
Proof.
  repeat match goal with |- _ /\ _ => split end.
  - intros E. rewrite actionPB0_upper, E. apply bump_upper_overflow.
  - intros E. rewrite actionPB1_lower, bump_lower_upper, E.
    apply bump_upper_overflow.
  - intros W. rewrite actionPB0_upper, bump_upper_value by exact W.
    pose proof (well_formed_value _ W). lia.
  - intros W. rewrite actionPB1_lower, bump_lower_upper.
    rewrite bump_upper_value by exact W.
    pose proof (well_formed_value _ W). lia.
  - rewrite (proj1 (presses_PB0 s _)). vm_compute. reflexivity.
  - rewrite (proj1 (presses_PB0 s _)). vm_compute. reflexivity.
  - rewrite (proj1 (presses_PB0 s _)). apply shown_saturated.
  - rewrite (proj1 (presses_PB0 s _)). apply shown_saturated.
  - rewrite (proj1 (presses_PB1 s _)). vm_compute. reflexivity.
  - rewrite (proj1 (presses_PB1 s _)). vm_compute. reflexivity.
  - rewrite (proj1 (presses_PB1 s _)). apply shown_saturated.
  - rewrite (proj1 (presses_PB1 s _)). apply shown_saturated.
Qed.

(** The saturation properties at a state showing four dashes twice. *)
Lemma increment_saturates_witness :
  upper (actionPB0 both_overflowed) = overflow /\
  lower (actionPB1 both_overflowed) = overflow /\
  value (upper both_overflowed) <= value (upper (actionPB0 both_overflowed)) /\
  value (lower both_overflowed) <= value (lower (actionPB1 both_overflowed)).
Proof.
  destruct (increment_saturates both_overflowed 0) as (H1 & H2 & H3 & H4 & _).
  split; [apply H1; reflexivity|].
  split; [apply H2; reflexivity|].
  split; [apply H3; left; reflexivity|].
  apply H4; left; reflexivity.
Defined.

(** C3.  On a tick that reads both buttons released, a PB0 hold count of 50
    leaves [actionPB0] out of the handler and a count of 51 runs it; the same
    holds for PB1 with [actionPB1]; a combined count of 1000 leaves
    [actionPB01] out and 1001 runs it.  The rest of the handler is the same
    in each pair. *)
Theorem thresholds_are_strict (pinb : Z) (s : state) :
  Z.land pinb 3 = 3 ->
  (counterPB0 s = 50 ->
   ISR pinb s = leave (check_PB01 (check_PB1 (enter s)))) /\
  (counterPB0 s = 51 ->
   ISR pinb s = leave (check_PB01 (check_PB1 (actionPB0 (enter s))))) /\
  (counterPB1 s = 50 ->
   ISR pinb s = leave (check_PB01 (check_PB0 (enter s)))) /\
  (counterPB1 s = 51 ->
   ISR pinb s = leave (check_PB01 (actionPB1 (check_PB0 (enter s))))) /\
  (counterPB01 s = 1000 ->
   ISR pinb s = leave (check_PB1 (check_PB0 (enter s)))) /\
  (counterPB01 s = 1001 ->
   ISR pinb s = leave (actionPB01 (check_PB1 (check_PB0 (enter s))))).
Proof.
  intros H. rewrite (ISR_released pinb s H).
  destruct (enter_counters s) as (G0 & _ & _).
  pose proof (counters_at_PB1_test s) as G1.
  pose proof (counters_at_PB01_test s) as G01.
  repeat match goal with |- _ /\ _ => split end; intros E.
  - now rewrite (proj1 (check_PB0_cases (enter s))) by lia.
  - now rewrite (proj2 (check_PB0_cases (enter s))) by lia.
  - now rewrite (proj1 (check_PB1_cases (check_PB0 (enter s)))) by lia.
  - now rewrite (proj2 (check_PB1_cases (check_PB0 (enter s)))) by lia.
  - now rewrite (proj1 (check_PB01_cases _)) by lia.
  - now rewrite (proj2 (check_PB01_cases _)) by lia.
Qed.

(** The six boundary cases on the booted device, the port reading 3. *)
Lemma thresholds_are_strict_witness :
  ISR 3 (held 50 0 0) =
    leave (check_PB01 (check_PB1 (enter (held 50 0 0)))) /\
  ISR 3 (held 51 0 0) =
    leave (check_PB01 (check_PB1 (actionPB0 (enter (held 51 0 0))))) /\
  ISR 3 (held 0 50 0) =
    leave (check_PB01 (check_PB0 (enter (held 0 50 0)))) /\
  ISR 3 (held 0 51 0) =
    leave (check_PB01 (actionPB1 (check_PB0 (enter (held 0 51 0))))) /\
  ISR 3 (held 0 0 1000) =
    leave (check_PB1 (check_PB0 (enter (held 0 0 1000)))) /\
  ISR 3 (held 0 0 1001) =
    leave (actionPB01 (check_PB1 (check_PB0 (enter (held 0 0 1001))))).
Proof.
  split; [|split; [|split; [|split; [|split]]]].
  - destruct (thresholds_are_strict 3 (held 50 0 0) eq_refl) as (T & _).
    apply T. reflexivity.
  - destruct (thresholds_are_strict 3 (held 51 0 0) eq_refl) as (_ & T & _).
    apply T. reflexivity.
  - destruct (thresholds_are_strict 3 (held 0 50 0) eq_refl)
      as (_ & _ & T & _).
    apply T. reflexivity.
  - destruct (thresholds_are_strict 3 (held 0 51 0) eq_refl)
      as (_ & _ & _ & T & _).
    apply T. reflexivity.
  - destruct (thresholds_are_strict 3 (held 0 0 1000) eq_refl)
      as (_ & _ & _ & _ & T & _).
    apply T. reflexivity.
  - destruct (thresholds_are_strict 3 (held 0 0 1001) eq_refl)
      as (_ & _ & _ & _ & _ & T).
    apply T. reflexivity.
Defined.

(** C4.  A tick that reads both buttons released ends with the three hold
    counters at zero, whatever the state it started from. *)
Theorem released_tick_clears_counters (pinb : Z) (s : state) :
  Z.land pinb 3 = 3 ->
  counterPB0 (ISR pinb s) = 0 /\
  counterPB1 (ISR pinb s) = 0 /\
  counterPB01 (ISR pinb s) = 0.
Proof.
  intros H. rewrite (ISR_released pinb s H).
  unfold leave, clear_counters. repeat split.
Qed.

Lemma released_tick_clears_counters_witness :
  counterPB0 (ISR 3 (held 60 70 2000)) = 0 /\
  counterPB1 (ISR 3 (held 60 70 2000)) = 0 /\
  counterPB01 (ISR 3 (held 60 70 2000)) = 0.
Proof.
  apply (released_tick_clears_counters 3 (held 60 70 2000)). reflexivity.
Defined.

(** C5.  A tick that reads both buttons pressed increments [counterPB01]
    (an [unsigned int], so modulo 65536) and leaves [counterPB0],
    [counterPB1] and the two buffers as they were.  A tick that reads anything
    else never advances [counterPB01]: it keeps it or clears it.  Below the
    wrap-around the counter is one higher after the tick exactly when both
    buttons read pressed. *)
Theorem both_pressed_tick (pinb : Z) (s : state) :
  (Z.land pinb 3 = 0 ->
   counterPB01 (ISR pinb s) = incr_uint (counterPB01 s) /\
   counterPB0 (ISR pinb s) = counterPB0 s /\
   counterPB1 (ISR pinb s) = counterPB1 s /\
   upper (ISR pinb s) = upper s /\
   lower (ISR pinb s) = lower s) /\
  (Z.land pinb 3 <> 0 ->
   counterPB01 (ISR pinb s) = counterPB01 s \/
   counterPB01 (ISR pinb s) = 0) /\
  (0 <= counterPB01 s < 65535 ->
   (counterPB01 (ISR pinb s) = counterPB01 s + 1 <-> Z.land pinb 3 = 0)).
Proof.
  assert (Pressed : Z.land pinb 3 = 0 ->
                    counterPB01 (ISR pinb s) = incr_uint (counterPB01 s)).
  { intros E. rewrite (ISR_both_pressed pinb s E). reflexivity. }
  assert (Other : Z.land pinb 3 <> 0 ->
                  counterPB01 (ISR pinb s) = counterPB01 s \/
                  counterPB01 (ISR pinb s) = 0).
  { intros N.
    destruct (sample_cases pinb) as [E | [E | [E | E]]]; [contradiction| | |].
    - left. rewrite (ISR_only_PB1 pinb s E). reflexivity.
    - left. rewrite (ISR_only_PB0 pinb s E). reflexivity.
    - right. apply (released_tick_counters pinb s E). }
  split; [|split].
  - intros E. split; [exact (Pressed E)|].
    rewrite (ISR_both_pressed pinb s E). repeat split.
  - exact Other.
  - intros R. split.
    + intros Inc. destruct (Z.eq_dec (Z.land pinb 3) 0) as [E | N]; [exact E|].
      destruct (Other N); lia.
    + intros E. rewrite (Pressed E). apply incr_uint_below, R.
Qed.

(** On the booted device: a tick with both buttons pressed, then one with
    only PB0 pressed. *)
Lemma both_pressed_tick_witness :
  (counterPB01 (ISR 0 boot) = incr_uint (counterPB01 boot) /\
   counterPB0 (ISR 0 boot) = counterPB0 boot /\
   counterPB1 (ISR 0 boot) = counterPB1 boot /\
   upper (ISR 0 boot) = upper boot /\
   lower (ISR 0 boot) = lower boot) /\
  (counterPB01 (ISR 2 boot) = counterPB01 boot \/
   counterPB01 (ISR 2 boot) = 0) /\
  (counterPB01 (ISR 0 boot) = counterPB01 boot + 1 <-> Z.land 0 3 = 0).
Proof.
  split; [|split].
  - destruct (both_pressed_tick 0 boot) as (T & _). apply T. reflexivity.
  - destruct (both_pressed_tick 2 boot) as (_ & T & _). apply T.
    vm_compute. discriminate.
  - destruct (both_pressed_tick 0 boot) as (_ & _ & T). apply T.
    split; vm_compute; [discriminate | reflexivity].
Defined.

(** C10.  On a released tick each test reads the hold counter as it was on
    entry, and the calls made are made in the order [actionPB0],
    [actionPB1], [actionPB01].  When the three counters are all above their
    thresholds the three actions run, the pins carry the incremented upper
    digits, then the incremented lower digits, then the eight digits of the
    reset, and both buffers end as blank, blank, blank, zero. *)
Theorem release_runs_in_order (pinb : Z) (s : state) :
  Z.land pinb 3 = 3 ->
  ISR pinb s =
    leave
      ((if counterPB01 s >? 1000 then actionPB01 else id)
         ((if counterPB1 s >? 50 then actionPB1 else id)
            ((if counterPB0 s >? 50 then actionPB0 else id) (enter s)))) /\
  (50 < counterPB0 s -> 50 < counterPB1 s -> 1000 < counterPB01 s ->
   ISR pinb s = leave (actionPB01 (actionPB1 (actionPB0 (enter s)))) /\
   upper (ISR pinb s) = (blank, blank, blank, 0) /\
   lower (ISR pinb s) = (blank, blank, blank, 0) /\
   wire (ISR pinb s) =
     wire s ++ [DigitalWrite ISRMKR HIGH] ++
     group 1 (bump_upper (upper s)) ++
     group 5 (bump_lower (lower s)) ++
     group 1 zero_display ++ group 5 zero_display ++
     [DigitalWrite ISRMKR LOW]).
Proof.
  intros H. split; [exact (released_tick pinb s H)|].
  intros A B R.
  assert (E : ISR pinb s = leave (actionPB01 (actionPB1 (actionPB0 (enter s))))).
  { rewrite (released_tick pinb s H).
    destruct (Z.gtb_spec (counterPB0 s) 50); [|lia].
    destruct (Z.gtb_spec (counterPB1 s) 50); [|lia].
    destruct (Z.gtb_spec (counterPB01 s) 1000); [|lia].
    reflexivity. }
  split; [exact E|]. rewrite E.
  destruct (leave_view (actionPB01 (actionPB1 (actionPB0 (enter s)))))
    as (Lu & Ll & Lw).
  destruct (actionPB01_digits (actionPB1 (actionPB0 (enter s)))) as [Zu Zl].
  split; [now rewrite Lu, Zu|]. split; [now rewrite Ll, Zl|].
  rewrite Lw, actionPB01_wire, actionPB1_wire, actionPB0_wire.
  destruct (actionPB0_frame (enter s)) as (_ & _ & _ & _ & Fl).
  rewrite Fl.
  destruct (enter_view s) as (Eu & El & Ew).
  rewrite Eu, El, Ew.
  now rewrite <- !app_assoc.
Qed.

Lemma release_runs_in_order_witness :
  ISR 3 (held 60 70 1500) =
    leave (actionPB01 (actionPB1 (actionPB0 (enter (held 60 70 1500))))) /\
  upper (ISR 3 (held 60 70 1500)) = (blank, blank, blank, 0) /\
  lower (ISR 3 (held 60 70 1500)) = (blank, blank, blank, 0).
Proof.
  destruct (release_runs_in_order 3 (held 60 70 1500) eq_refl) as (_ & T).
  destruct T as (T1 & T2 & T3 & _); [reflexivity | reflexivity | reflexivity |].
  split; [exact T1|]. split; [exact T2 | exact T3].
Defined.

(** C9.  In every state the device can reach, each of the two buffers is
    either the rendering of a number between 0 and 9999 or four dashes, and
    so each of the eight digits is a numeral, a blank or a dash. *)
Theorem digits_stay_symbols (s : state) :
  reachable s ->
  well_formed (upper s) /\ well_formed (lower s) /\
  all_symbols (upper s) = true /\ all_symbols (lower s) = true.
Proof.
  intros R.
  assert (W : buffers_well_formed s).
  { revert s R. apply reachable_ind.
    - exact boot_well_formed.
    - exact ISR_well_formed. }
  destruct W as [Wu Wl].
  repeat split; auto using well_formed_symbols.
Qed.

(** After sixty ticks with only PB0 pressed and one with both released. *)
Lemma digits_stay_symbols_witness :
  well_formed (upper (run (hold 2 60 ++ [3]) boot)) /\
  well_formed (lower (run (hold 2 60 ++ [3]) boot)) /\
  all_symbols (upper (run (hold 2 60 ++ [3]) boot)) = true /\
  all_symbols (lower (run (hold 2 60 ++ [3]) boot)) = true.
Proof.
  apply (digits_stay_symbols (run (hold 2 60 ++ [3]) boot)).
  exists (hold 2 60 ++ [3]). reflexivity.
Defined.

(** C6, as the code has it.  In every state the device can reach, each of
    the three hold counters lies between 0 and 65535, the range of an
    [unsigned int]. *)
Theorem hold_counters_bounded (s : state) :
  reachable s ->
  0 <= counterPB0 s <= 65535 /\
  0 <= counterPB1 s <= 65535 /\
  0 <= counterPB01 s <= 65535.
Proof.
  revert s. apply (reachable_ind counters_in_range).
  - exact boot_counters_in_range.
  - exact ISR_counters_in_range.
Qed.

Lemma hold_counters_bounded_witness :
  0 <= counterPB0 (run (hold 0 1001) boot) <= 65535 /\
  0 <= counterPB1 (run (hold 0 1001) boot) <= 65535 /\
  0 <= counterPB01 (run (hold 0 1001) boot) <= 65535.
Proof.
  apply (hold_counters_bounded (run (hold 0 1001) boot)).
  exists (hold 0 1001). reflexivity.
Defined.

(** C6, as stated, fails: after 1001 ticks with both buttons pressed the
    device is in a reachable state whose combined hold counter is 1001. *)
Lemma both_held_1001_ticks :
  reachable (run (hold 0 1001) boot) /\
  counterPB01 (run (hold 0 1001) boot) = 1001 /\
  ~ counterPB01 (run (hold 0 1001) boot) <= 1000.
Proof.
  split; [exists (hold 0 1001); reflexivity|].
  assert (E : counterPB01 (run (hold 0 1001) boot) = 1001)
    by (vm_compute; reflexivity).
  split; [exact E | rewrite E; lia].
Qed.

(** * Further properties of the code *)

(** ** Bytes on the bus *)


(** ** The port reading *)

Lemma check_pbtns (s : state) :
  pbtns (check_PB0 s) = pbtns s /\
  pbtns (check_PB1 s) = pbtns s /\
  pbtns (check_PB01 s) = pbtns s.
Proof.
  unfold check_PB0, check_PB1, check_PB01.
  destruct (counterPB0 s >? 50), (counterPB1 s >? 50),
    (counterPB01 s >? 1000);
    pose proof (actionPB0_frame s); pose proof (actionPB1_frame s);
    repeat split; tauto.
Qed.

(** Only bits 0 and 1 of PINB matter to the handler, whatever the other
    pins of port B (the SPI lines among them) read; after the tick [pbtns]
    holds these two bits. *)
Theorem ISR_reads_two_bits (pinb : Z) (s : state) :
  ISR pinb s = ISR (Z.land pinb 3) s /\
  pbtns (ISR pinb s) = Z.land pinb 3 /\
  0 <= pbtns (ISR pinb s) <= 3.
Proof.
  assert (P : pbtns (ISR pinb s) = Z.land pinb 3).
  { destruct (sample_cases pinb) as [E | [E | [E | E]]]; rewrite E.
    - rewrite (ISR_both_pressed pinb s E). reflexivity.
    - rewrite (ISR_only_PB1 pinb s E). reflexivity.
    - rewrite (ISR_only_PB0 pinb s E). reflexivity.
    - rewrite (ISR_released pinb s E).
      destruct (check_pbtns (check_PB1 (check_PB0 (enter s)))) as (_ & _ & A).
      destruct (check_pbtns (check_PB0 (enter s))) as (_ & B & _).
      destruct (check_pbtns (enter s)) as (C & _ & _).
      change (pbtns (check_PB01 (check_PB1 (check_PB0 (enter s)))) = 3).
      rewrite A, B, C. reflexivity. }
  split; [|split; [exact P|]].
  - unfold ISR. rewrite <- Z.land_assoc. reflexivity.
  - rewrite P. destruct (sample_cases pinb) as [E | [E | [E | E]]]; lia.
Qed.

(** ** Ticks that leave the display alone *)

Lemma check_quiet (s : state) :
  (counterPB0 s <= 50 -> check_PB0 s = s) /\
  (counterPB1 s <= 50 -> check_PB1 s = s) /\
  (counterPB01 s <= 1000 -> check_PB01 s = s).
Proof.
  split; [|split].
  - apply check_PB0_cases.
  - apply check_PB1_cases.
  - apply check_PB01_cases.
Qed.

(** A tick that reads a button down drives the timing marker up and down
    and nothing else. *)
Lemma pressed_tick_wire (pinb : Z) (s : state) :
  Z.land pinb 3 <> 3 ->
  wire (ISR pinb s) =
    wire s ++ [DigitalWrite ISRMKR HIGH; DigitalWrite ISRMKR LOW].
Proof.
  intros N.
  destruct (sample_cases pinb) as [E | [E | [E | E]]]; [| | |contradiction].
  - rewrite (ISR_both_pressed pinb s E).
    cbn [wire digitalWrite emit set_counterPB01 set_pbtns].
    now rewrite <- app_assoc.
  - rewrite (ISR_only_PB1 pinb s E).
    cbn [wire digitalWrite emit set_counterPB1 set_pbtns].
    now rewrite <- app_assoc.
  - rewrite (ISR_only_PB0 pinb s E).
    cbn [wire digitalWrite emit set_counterPB0 set_pbtns].
    now rewrite <- app_assoc.
Qed.

(** A tick drives nothing but the timing marker, up and down again, and
    leaves both buffers as they are, unless it reads both buttons released
    with a hold counter above its threshold.  In particular the display is
    never written while a button is down. *)
Theorem silent_tick (pinb : Z) (s : state) :
  Z.land pinb 3 <> 3 \/
  (counterPB0 s <= 50 /\ counterPB1 s <= 50 /\ counterPB01 s <= 1000) ->
  wire (ISR pinb s) =
    wire s ++ [DigitalWrite ISRMKR HIGH; DigitalWrite ISRMKR LOW] /\
  upper (ISR pinb s) = upper s /\
  lower (ISR pinb s) = lower s.
Proof.
  intros H.
  destruct (Z.eq_dec (Z.land pinb 3) 3) as [E | N].
  - destruct H as [N | (Q0 & Q1 & Q01)]; [contradiction|].
    rewrite (ISR_released pinb s E).
    destruct (enter_counters s) as (G0 & G1 & G01).
    rewrite (proj1 (check_quiet (enter s))) by lia.
    rewrite (proj1 (proj2 (check_quiet (enter s)))) by lia.
    rewrite (proj2 (proj2 (check_quiet (enter s)))) by lia.
    destruct (leave_view (enter s)) as (Lu & Ll & Lw).
    destruct (enter_view s) as (Eu & El & Ew).
    rewrite Lu, Ll, Lw, Eu, El, Ew, <- app_assoc. repeat split.
  - split; [exact (pressed_tick_wire pinb s N)|].
    exact (pressed_tick_digits pinb s N).
Qed.

Lemma silent_tick_witness :
  wire (ISR 2 boot) =
    wire boot ++ [DigitalWrite ISRMKR HIGH; DigitalWrite ISRMKR LOW] /\
  upper (ISR 2 boot) = upper boot /\
  lower (ISR 2 boot) = lower boot.
Proof.
  apply (silent_tick 2 boot). left. vm_compute. discriminate.
Defined.

(** ** Overflow and reset *)

(** A display that shows four dashes keeps them through every tick that
    does not run the reset: only [actionPB01] takes a display out of
    overflow. *)
Theorem overflow_needs_reset (pinb : Z) (s : state) :
  Z.land pinb 3 <> 3 \/ counterPB01 s <= 1000 ->
  (upper s = overflow -> upper (ISR pinb s) = overflow) /\
  (lower s = overflow -> lower (ISR pinb s) = overflow).
Proof.
  intros H.
  destruct (Z.eq_dec (Z.land pinb 3) 3) as [E | N].
  - destruct H as [N | Q]; [contradiction|].
    rewrite (ISR_released pinb s E).
    rewrite (proj2 (proj2 (check_quiet (check_PB1 (check_PB0 (enter s))))))
      by (rewrite counters_at_PB01_test; exact Q).
    destruct (leave_view (check_PB1 (check_PB0 (enter s)))) as (Lu & Ll & _).
    rewrite Lu, Ll.
    assert (U1 : upper (check_PB1 (check_PB0 (enter s))) =
                 upper (check_PB0 (enter s))).
    { unfold check_PB1. destruct (counterPB1 (check_PB0 (enter s)) >? 50);
        [apply actionPB1_frame | reflexivity]. }
    assert (L0 : lower (check_PB0 (enter s)) = lower s).
    { unfold check_PB0. destruct (counterPB0 (enter s) >? 50);
        [|reflexivity].
      destruct (actionPB0_frame (enter s)) as (_ & _ & _ & _ & F).
      rewrite F. reflexivity. }
    split; intros O.
    + rewrite U1. unfold check_PB0.
      destruct (counterPB0 (enter s) >? 50); [|exact O].
      rewrite actionPB0_upper.
      change (upper (enter s)) with (upper s).
      rewrite O. apply bump_upper_overflow.
    + unfold check_PB1.
      destruct (counterPB1 (check_PB0 (enter s)) >? 50).
      * rewrite actionPB1_lower, bump_lower_upper, L0, O.
        apply bump_upper_overflow.
      * rewrite L0. exact O.
  - destruct (pressed_tick_digits pinb s N) as [Eu El].
    rewrite Eu, El. tauto.
Qed.

Lemma overflow_needs_reset_witness :
  upper (ISR 3 (set_counterPB0 60 both_overflowed)) = overflow /\
  lower (ISR 3 (set_counterPB0 60 both_overflowed)) = overflow.
Proof.
  destruct (overflow_needs_reset 3 (set_counterPB0 60 both_overflowed))
    as [U L]; [right; vm_compute; discriminate|].
  split; [apply U | apply L]; reflexivity.
Defined.

(** From any state, overflow included, the reset followed by [n] presses
    of PB0 and [m] presses of PB1 shows [n] on the upper display and [m] on
    the lower one (four dashes from 10000 on). *)
Theorem reset_then_count (s : state) (n m : nat) :
  upper (Nat.iter m actionPB1 (Nat.iter n actionPB0 (actionPB01 s))) =
    shown (Z.of_nat n) /\
  lower (Nat.iter m actionPB1 (Nat.iter n actionPB0 (actionPB01 s))) =
    shown (Z.of_nat m).
Proof.
  destruct (iter_actionPB1 m (Nat.iter n actionPB0 (actionPB01 s)))
    as [El Eu].
  destruct (iter_actionPB0 n (actionPB01 s)) as [Fu Fl].
  destruct (actionPB01_digits s) as [Zu Zl].
  rewrite Eu, El, Fu, Fl, Zu, Zl.
  split; apply iter_bump_shown.
Qed.

(** The two increments act on their own display by the same digit function
    and do not disturb each other: in either order they leave the same
    digits and the same hold counters (only the order of the writes on the
    bus differs). *)
Theorem increments_commute (s : state) :
  (forall b, bump_lower b = bump_upper b) /\
  upper (actionPB0 (actionPB1 s)) = upper (actionPB1 (actionPB0 s)) /\
  lower (actionPB0 (actionPB1 s)) = lower (actionPB1 (actionPB0 s)) /\
  counterPB0 (actionPB0 (actionPB1 s)) = counterPB0 (actionPB1 (actionPB0 s)) /\
  counterPB1 (actionPB0 (actionPB1 s)) = counterPB1 (actionPB1 (actionPB0 s)) /\
  counterPB01 (actionPB0 (actionPB1 s)) =
    counterPB01 (actionPB1 (actionPB0 s)).
Proof.
  split; [exact bump_lower_upper|].
  destruct (actionPB0_frame (actionPB1 s)) as (_ & A0 & A1 & A01 & Al).
  destruct (actionPB1_frame (actionPB0 s)) as (_ & B0 & B1 & B01 & Bu).
  destruct (actionPB0_frame s) as (_ & C0 & C1 & C01 & Cl).
  destruct (actionPB1_frame s) as (_ & E0 & E1 & E01 & Eu).
  rewrite A0, A1, A01, Al, B0, B1, B01, Bu.
  rewrite !actionPB0_upper, !actionPB1_lower.
  rewrite C0, C1, C01, Cl, E0, E1, E01, Eu.
  repeat split.
Qed.

(** ** Counting ticks between two releases *)

Lemma run_cons (p : Z) (pinbs : list Z) (s : state) :
  run (p :: pinbs) s = run pinbs (ISR p s).
Proof. reflexivity. Qed.

Lemma run_app (l1 l2 : list Z) (s : state) :
  run (l1 ++ l2) s = run l2 (run l1 s).
Proof. unfold run. apply fold_left_app. Qed.

Lemma tally_cons (k p : Z) (pinbs : list Z) :
  tally k (p :: pinbs) =
  (if Z.land p 3 =? k then 1 else 0) + tally k pinbs.
Proof.
  unfold tally. cbn [filter].
  destruct (Z.land p 3 =? k); cbn [length]; lia.
Qed.

Lemma tally_nonneg (k : Z) (pinbs : list Z) : 0 <= tally k pinbs.
Proof. unfold tally. lia. Qed.

(** One tick with a button down, counter by counter. *)
Lemma pressed_tick_counters (pinb : Z) (s : state) :
  Z.land pinb 3 <> 3 ->
  counterPB0 (ISR pinb s) =
    (if Z.land pinb 3 =? 2 then incr_uint (counterPB0 s) else counterPB0 s) /\
  counterPB1 (ISR pinb s) =
    (if Z.land pinb 3 =? 1 then incr_uint (counterPB1 s) else counterPB1 s) /\
  counterPB01 (ISR pinb s) =
    (if Z.land pinb 3 =? 0 then incr_uint (counterPB01 s)
     else counterPB01 s).
Proof.
  intros N.
  destruct (sample_cases pinb) as [E | [E | [E | E]]]; [| | |contradiction];
    rewrite E.
  - rewrite (ISR_both_pressed pinb s E). repeat split.
  - rewrite (ISR_only_PB1 pinb s E). repeat split.
  - rewrite (ISR_only_PB0 pinb s E). repeat split.
Qed.

Lemma count_step (c t : Z) (b : bool) :
  0 <= c <= 65535 ->
  ((if b then incr_uint c else c) + t) mod 65536 =
  (c + ((if b then 1 else 0) + t)) mod 65536.
Proof.
  intros R. destruct b.
  - unfold incr_uint, AVR.to_uint.
    rewrite Zplus_mod_idemp_l. f_equal; lia.
  - f_equal; lia.
Qed.

(** The three hold counters and the two buffers through a run of ticks
    none of which reads both buttons released. *)
Lemma tally_run (pinbs : list Z) (s : state) :
  counters_in_range s ->
  Forall (fun p => Z.land p 3 <> 3) pinbs ->
  (counterPB0 (run pinbs s), counterPB1 (run pinbs s),
   counterPB01 (run pinbs s)) =
  ((counterPB0 s + tally 2 pinbs) mod 65536,
   (counterPB1 s + tally 1 pinbs) mod 65536,
   (counterPB01 s + tally 0 pinbs) mod 65536) /\
  (upper (run pinbs s), lower (run pinbs s)) = (upper s, lower s).
Proof.
  intros R F. revert s R.
  induction F as [|p pinbs N F IH]; intros s R.
  - destruct R as (R0 & R1 & R01).
    change (run [] s) with s. unfold tally. cbn [filter length Z.of_nat].
    rewrite !Z.add_0_r, !Z.mod_small by lia. split; reflexivity.
  - rewrite run_cons.
    destruct (IH (ISR p s) (ISR_counters_in_range p s R)) as (I & Id).
    destruct (pressed_tick_counters p s N) as (P0 & P1 & P01).
    destruct (pressed_tick_digits p s N) as (Pu & Pl).
    destruct R as (R0 & R1 & R01).
    rewrite I, Id, P0, P1, P01, Pu, Pl, !tally_cons.
    rewrite !count_step by lia. split; reflexivity.
Qed.

(** Through a run of ticks none of which reads both buttons released, each
    hold counter advances by the number of ticks that read its own case,
    modulo 65536: a single-button counter stands still, and is not cleared,
    while both buttons are down, and goes on counting afterwards.  The
    buffers do not change. *)
Theorem counters_tally (pinbs : list Z) (s : state) :
  counters_in_range s ->
  Forall (fun p => Z.land p 3 <> 3) pinbs ->
  counterPB0 (run pinbs s) = (counterPB0 s + tally 2 pinbs) mod 65536 /\
  counterPB1 (run pinbs s) = (counterPB1 s + tally 1 pinbs) mod 65536 /\
  counterPB01 (run pinbs s) = (counterPB01 s + tally 0 pinbs) mod 65536 /\
  upper (run pinbs s) = upper s /\
  lower (run pinbs s) = lower s.
Proof.
  intros R F.
  destruct (tally_run pinbs s R F) as (C & D).
  split; [exact (f_equal (fun t => fst (fst t)) C)|].
  split; [exact (f_equal (fun t => snd (fst t)) C)|].
  split; [exact (f_equal snd C)|].
  split; [exact (f_equal fst D) | exact (f_equal snd D)].
Qed.

Lemma counters_tally_witness :
  counterPB0 (run (hold 2 30 ++ hold 0 5 ++ hold 2 30) boot) =
    (counterPB0 boot + tally 2 (hold 2 30 ++ hold 0 5 ++ hold 2 30))
    mod 65536 /\
  counterPB1 (run (hold 2 30 ++ hold 0 5 ++ hold 2 30) boot) =
    (counterPB1 boot + tally 1 (hold 2 30 ++ hold 0 5 ++ hold 2 30))
    mod 65536 /\
  counterPB01 (run (hold 2 30 ++ hold 0 5 ++ hold 2 30) boot) =
    (counterPB01 boot + tally 0 (hold 2 30 ++ hold 0 5 ++ hold 2 30))
    mod 65536 /\
  upper (run (hold 2 30 ++ hold 0 5 ++ hold 2 30) boot) = upper boot /\
  lower (run (hold 2 30 ++ hold 0 5 ++ hold 2 30) boot) = lower boot.
Proof.
  apply (counters_tally (hold 2 30 ++ hold 0 5 ++ hold 2 30) boot).
  - vm_compute. repeat split; discriminate.
  - vm_compute. repeat constructor; discriminate.
Defined.

(** ** What a release does to the two buffers *)

Lemma upper_leave (s : state) : upper (leave s) = upper s.
Proof. reflexivity. Qed.
Lemma lower_leave (s : state) : lower (leave s) = lower s.
Proof. reflexivity. Qed.
Lemma upper_enter (s : state) : upper (enter s) = upper s.
Proof. reflexivity. Qed.
Lemma lower_enter (s : state) : lower (enter s) = lower s.
Proof. reflexivity. Qed.
Lemma upper_actionPB1 (s : state) : upper (actionPB1 s) = upper s.
Proof. apply actionPB1_frame. Qed.
Lemma lower_actionPB0 (s : state) : lower (actionPB0 s) = lower s.
Proof. apply actionPB0_frame. Qed.
Lemma upper_actionPB01 (s : state) : upper (actionPB01 s) = zero_display.
Proof. apply actionPB01_digits. Qed.
Lemma lower_actionPB01 (s : state) : lower (actionPB01 s) = zero_display.
Proof. apply actionPB01_digits. Qed.
Lemma lower_actionPB1' (s : state) :
  lower (actionPB1 s) = bump_upper (lower s).
Proof. rewrite actionPB1_lower. apply bump_lower_upper. Qed.

Create Rewrite HintDb buffers.
#[local] Hint Rewrite upper_leave lower_leave upper_enter lower_enter
  upper_actionPB1 lower_actionPB0 upper_actionPB01 lower_actionPB01
  actionPB0_upper lower_actionPB1' : buffers.

(** The buffers after a tick that reads both buttons released, in terms of
    the hold counters it finds: the reset wins over the increments, and
    each display otherwise advances when its own counter is above 50. *)
Lemma released_tick_digits (pinb : Z) (s : state) :
  Z.land pinb 3 = 3 ->
  upper (ISR pinb s) =
    (if counterPB01 s >? 1000 then zero_display
     else if counterPB0 s >? 50 then bump_upper (upper s) else upper s) /\
  lower (ISR pinb s) =
    (if counterPB01 s >? 1000 then zero_display
     else if counterPB1 s >? 50 then bump_upper (lower s) else lower s).
Proof.
  intros E. rewrite (released_tick pinb s E).
  destruct (counterPB01 s >? 1000), (counterPB1 s >? 50),
    (counterPB0 s >? 50); unfold id;
    autorewrite with buffers; split; reflexivity.
Qed.

(** ** Gestures *)

Lemma tally_hold (k pinb d : Z) :
  0 <= d ->
  tally k (hold pinb d) = if Z.land pinb 3 =? k then d else 0.
Proof.
  intros Hd. unfold hold.
  rewrite <- (Z2Nat.id d) at 2 by exact Hd.
  induction (Z.to_nat d) as [|n IH].
  - destruct (Z.land pinb 3 =? k); reflexivity.
  - cbn [repeat]. rewrite tally_cons, IH.
    destruct (Z.land pinb 3 =? k); lia.
Qed.

Lemma hold_pressed (pinb d : Z) :
  Z.land pinb 3 <> 3 -> Forall (fun p => Z.land p 3 <> 3) (hold pinb d).
Proof.
  intros N. apply Forall_forall. intros p Hp.
  apply repeat_spec in Hp. now subst p.
Qed.

(** The buffers after a run of ticks with a button down and a release. *)
Lemma after_gesture (pinbs : list Z) (p : Z) (s : state) :
  counterPB0 s = 0 -> counterPB1 s = 0 -> counterPB01 s = 0 ->
  Forall (fun q => Z.land q 3 <> 3) pinbs ->
  Z.land p 3 = 3 ->
  upper (run (pinbs ++ [p]) s) =
    (if tally 0 pinbs mod 65536 >? 1000 then zero_display
     else if tally 2 pinbs mod 65536 >? 50 then bump_upper (upper s)
          else upper s) /\
  lower (run (pinbs ++ [p]) s) =
    (if tally 0 pinbs mod 65536 >? 1000 then zero_display
     else if tally 1 pinbs mod 65536 >? 50 then bump_upper (lower s)
          else lower s).
Proof.
  intros Z0 Z1 Z01 F E.
  assert (R : counters_in_range s)
    by (unfold counters_in_range; rewrite Z0, Z1, Z01; lia).
  destruct (tally_run pinbs s R F) as (C & D).
  pose proof (f_equal (fun t => fst (fst t)) C) as C0.
  pose proof (f_equal (fun t => snd (fst t)) C) as C1.
  pose proof (f_equal snd C) as C01.
  pose proof (f_equal fst D) as Cu.
  pose proof (f_equal snd D) as Cl.
  cbn [fst snd] in C0, C1, C01, Cu, Cl.
  rewrite Z0 in C0. rewrite Z1 in C1. rewrite Z01 in C01.
  rewrite Z.add_0_l in C0, C1, C01.
  rewrite run_app. change (run [p] (run pinbs s)) with (ISR p (run pinbs s)).
  destruct (released_tick_digits p (run pinbs s) E) as (Du & Dl).
  rewrite Du, Dl, C0, C1, C01, Cu, Cl. split; reflexivity.
Qed.

Lemma after_release (pinbs : list Z) (p : Z) (s : state) :
  Z.land p 3 = 3 ->
  counterPB0 (run (pinbs ++ [p]) s) = 0 /\
  counterPB1 (run (pinbs ++ [p]) s) = 0 /\
  counterPB01 (run (pinbs ++ [p]) s) = 0.
Proof.
  intros E. rewrite run_app.
  change (run [p] (run pinbs s)) with (ISR p (run pinbs s)).
  exact (released_tick_counters p (run pinbs s) E).
Qed.

(** A whole gesture: any run of ticks with a button down, then a release.
    The release finds in each hold counter the number of ticks that read
    its case (modulo 65536), clears all three, and changes the buffers
    accordingly: both go to blank, blank, blank, zero when both buttons were
    down for more than 1000 ticks; otherwise each display advances by one
    when its own button was down alone for more than 50 ticks.  The ticks
    need not be consecutive. *)
Theorem gesture (pinbs : list Z) (p : Z) (s : state) :
  counterPB0 s = 0 -> counterPB1 s = 0 -> counterPB01 s = 0 ->
  Forall (fun q => Z.land q 3 <> 3) pinbs ->
  Z.land p 3 = 3 ->
  upper (run (pinbs ++ [p]) s) =
    (if tally 0 pinbs mod 65536 >? 1000 then zero_display
     else if tally 2 pinbs mod 65536 >? 50 then bump_upper (upper s)
          else upper s) /\
  lower (run (pinbs ++ [p]) s) =
    (if tally 0 pinbs mod 65536 >? 1000 then zero_display
     else if tally 1 pinbs mod 65536 >? 50 then bump_upper (lower s)
          else lower s) /\
  counterPB0 (run (pinbs ++ [p]) s) = 0 /\
  counterPB1 (run (pinbs ++ [p]) s) = 0 /\
  counterPB01 (run (pinbs ++ [p]) s) = 0.
Proof.
  intros Z0 Z1 Z01 F E.
  destruct (after_gesture pinbs p s Z0 Z1 Z01 F E) as (U & L).
  split; [exact U|]. split; [exact L|].
  exact (after_release pinbs p s E).
Qed.

(** PB0 down for thirty ticks, both buttons for five, PB0 for thirty more,
    then the release: sixty ticks of PB0 in all. *)
Lemma gesture_witness :
  upper (run ((hold 2 30 ++ hold 0 5 ++ hold 2 30) ++ [3]) boot) =
    bump_upper (upper boot) /\
  lower (run ((hold 2 30 ++ hold 0 5 ++ hold 2 30) ++ [3]) boot) =
    lower boot.
Proof.
  destruct (gesture (hold 2 30 ++ hold 0 5 ++ hold 2 30) 3 boot)
    as (U & L & _).
  - reflexivity.
  - reflexivity.
  - reflexivity.
  - vm_compute. repeat constructor; discriminate.
  - reflexivity.
  - split; [exact U | exact L].
Defined.

(** ** The device as a hand counter *)

(** One gesture from a state whose hold counters are clear. *)
Lemma press_effect (g : button * Z) (s : state) :
  counterPB0 s = 0 -> counterPB1 s = 0 -> counterPB01 s = 0 ->
  0 <= snd g <= 65535 ->
  upper (run (press g) s) =
    match fst g with
    | OnlyPB0 => if snd g >? 50 then bump_upper (upper s) else upper s
    | OnlyPB1 => upper s
    | BothButtons => if snd g >? 1000 then zero_display else upper s
    end /\
  lower (run (press g) s) =
    match fst g with
    | OnlyPB0 => lower s
    | OnlyPB1 => if snd g >? 50 then bump_upper (lower s) else lower s
    | BothButtons => if snd g >? 1000 then zero_display else lower s
    end /\
  counterPB0 (run (press g) s) = 0 /\
  counterPB1 (run (press g) s) = 0 /\
  counterPB01 (run (press g) s) = 0.
Proof.
  destruct g as [b d]. cbn [fst snd]. intros Z0 Z1 Z01 Hd.
  assert (F : Forall (fun q => Z.land q 3 <> 3) (hold (reading b) d))
    by (apply hold_pressed; destruct b; vm_compute; discriminate).
  destruct (after_gesture (hold (reading b) d) 3 s Z0 Z1 Z01 F eq_refl)
    as (U & L).
  pose proof (after_release (hold (reading b) d) 3 s eq_refl) as K.
  unfold press. cbn [fst snd]. rewrite U, L.
  rewrite !tally_hold by lia.
  assert (M : d mod 65536 = d) by (apply Z.mod_small; lia).
  split; [|split; [|exact K]];
    destruct b; cbn [reading];
    repeat match goal with
           | |- context [Z.land ?a 3 =? ?k] =>
               let v := eval vm_compute in (Z.land a 3 =? k) in
               change (Z.land a 3 =? k) with v; cbv iota
           end;
    rewrite ?M;
    change (0 mod 65536) with 0;
    change (0 >? 1000) with false; change (0 >? 50) with false;
    reflexivity.
Qed.

Lemma tell_step (a b : Z) (g : button * Z) (s : state) :
  counterPB0 s = 0 -> counterPB1 s = 0 -> counterPB01 s = 0 ->
  upper s = shown a -> lower s = shown b -> 0 <= a -> 0 <= b ->
  0 <= snd g <= 65535 ->
  upper (run (press g) s) = shown (fst (tell (a, b) g)) /\
  lower (run (press g) s) = shown (snd (tell (a, b) g)) /\
  0 <= fst (tell (a, b) g) /\ 0 <= snd (tell (a, b) g).
Proof.
  intros Z0 Z1 Z01 Eu El Ha Hb Hd.
  destruct (press_effect g s Z0 Z1 Z01 Hd) as (U & L & _).
  rewrite U, L, Eu, El. unfold tell.
  destruct g as [k d]. cbn [fst snd].
  destruct k.
  - destruct (d >? 50); cbn [fst snd];
      rewrite ?bump_upper_shown by lia; repeat split; lia.
  - destruct (d >? 50); cbn [fst snd];
      rewrite ?bump_upper_shown by lia; repeat split; lia.
  - destruct (d >? 1000); cbn [fst snd]; repeat split; lia.
Qed.

Lemma gestures_refine (gs : list (button * Z)) :
  forall (s : state) (a b : Z),
  counterPB0 s = 0 -> counterPB1 s = 0 -> counterPB01 s = 0 ->
  upper s = shown a -> lower s = shown b -> 0 <= a -> 0 <= b ->
  Forall (fun g => 0 <= snd g <= 65535) gs ->
  upper (run (flat_map press gs) s) = shown (fst (fold_left tell gs (a, b))) /\
  lower (run (flat_map press gs) s) = shown (snd (fold_left tell gs (a, b))).
Proof.
  induction gs as [|g gs IH]; intros s a b Z0 Z1 Z01 Eu El Ha Hb F.
  - split; assumption.
  - inversion F as [|g' gs' Hd F']; subst g' gs'.
    cbn [flat_map fold_left]. rewrite run_app.
    destruct (press_effect g s Z0 Z1 Z01 Hd) as (_ & _ & K0 & K1 & K01).
    destruct (tell_step a b g s Z0 Z1 Z01 Eu El Ha Hb Hd)
      as (U & L & Ha' & Hb').
    destruct (tell (a, b) g) as [a' b'] eqn:T. cbn [fst snd] in *.
    exact (IH (run (press g) s) a' b' K0 K1 K01 U L Ha' Hb' F').
Qed.

(** The device is a two-number hand counter.  After boot, through any
    sequence of gestures (one button alone, or both, held for up to 65535
    ticks and then released), the upper display shows the number of PB0
    presses longer than 50 ticks since the last press of both buttons
    longer than 1000 ticks, and the lower display shows the same for PB1;
    shorter presses are ignored, and a number above 9999 shows as four
    dashes. *)
Theorem hand_counter (gs : list (button * Z)) :
  Forall (fun g => 0 <= snd g <= 65535) gs ->
  upper (run (flat_map press gs) boot) = shown (fst (counted gs)) /\
  lower (run (flat_map press gs) boot) = shown (snd (counted gs)).
Proof.
  intros F. unfold counted.
  assert (U : upper boot = shown 0 /\ lower boot = shown 0).
  { rewrite boot_eq. apply display_init_digits. }
  destruct U as [U L].
  apply gestures_refine; try assumption; try lia;
    rewrite boot_eq; reflexivity.
Qed.

(** PB0 for sixty ticks, a twenty-tick glitch on PB0, PB1 for sixty ticks,
    each followed by a release. *)
Lemma hand_counter_witness :
  upper (run (flat_map press [(OnlyPB0, 60); (OnlyPB0, 20); (OnlyPB1, 60)])
             boot) = (blank, blank, blank, 1) /\
  lower (run (flat_map press [(OnlyPB0, 60); (OnlyPB0, 20); (OnlyPB1, 60)])
             boot) = (blank, blank, blank, 1).
Proof.
  apply (hand_counter [(OnlyPB0, 60); (OnlyPB0, 20); (OnlyPB1, 60)]).
  repeat constructor; cbn [snd]; lia.
Defined.

(** ** The display never goes stale *)

Lemma max7219_frame (c : max7219) (a d : Z) :
  fold_left max7219_step (frame a d) c = ((None, None), snd c ++ [(a, d)]).
Proof. destruct c as [[x y] ws]. reflexivity. Qed.

Lemma loads_frame (l : list event) (a d : Z) :
  loads (l ++ frame a d) = loads l ++ [(a, d)].
Proof. unfold loads. rewrite fold_left_app, max7219_frame. reflexivity. Qed.

Lemma loads_marker (l : list event) (v : level) :
  loads (l ++ [DigitalWrite ISRMKR v]) = loads l.
Proof.
  unfold loads. rewrite fold_left_app. cbn [fold_left].
  destruct v; reflexivity.
Qed.

Lemma loads_group (l : list event) (base : Z) (b : digits) :
  loads (l ++ group base b) = loads l ++ writes base b.
Proof.
  destruct b as [[[w x] y] z]. unfold group, writes.
  rewrite !app_assoc, !loads_frame, <- !app_assoc. reflexivity.
Qed.

Lemma register_last (a a' d : Z) (ws : list (Z * Z)) :
  register a (ws ++ [(a', d)]) =
  if a' =? a then Some d else register a ws.
Proof. unfold register. rewrite fold_left_app. reflexivity. Qed.

(** Writing one display sets its four registers and no other. *)
Lemma register_writes (a base : Z) (b : digits) (ws : list (Z * Z)) :
  register a (ws ++ writes base b) =
  let '(w, x, y, z) := b in
  if a =? base + 3 then Some (sent z)
  else if a =? base + 2 then Some (sent y)
  else if a =? base + 1 then Some (sent x)
  else if a =? base then Some (sent w)
  else register a ws.
Proof.
  destruct b as [[[w x] y] z]. unfold writes.
  change [(base, sent w); (base + 1, sent x); (base + 2, sent y);
          (base + 3, sent z)]
    with ([(base, sent w)] ++ [(base + 1, sent x)] ++ [(base + 2, sent y)]
          ++ [(base + 3, sent z)]).
  rewrite !app_assoc, !register_last.
  rewrite (Z.eqb_sym (base + 3)), (Z.eqb_sym (base + 2)),
    (Z.eqb_sym (base + 1)), (Z.eqb_sym base).
  reflexivity.
Qed.

Lemma in_sync_marker (l : list event) (u lo : digits) (v : level) :
  in_sync l u lo -> in_sync (l ++ [DigitalWrite ISRMKR v]) u lo.
Proof. unfold in_sync. now rewrite loads_marker. Qed.

Lemma in_sync_upper (l : list event) (u u' lo : digits) :
  in_sync l u lo -> in_sync (l ++ group 1 u') u' lo.
Proof.
  unfold in_sync, registers. intros (_ & L & C).
  rewrite loads_group. cbn [map] in *.
  rewrite !register_writes.
  destruct u' as [[[w x] y] z]. cbn. auto.
Qed.

Lemma in_sync_lower (l : list event) (u lo lo' : digits) :
  in_sync l u lo -> in_sync (l ++ group 5 lo') u lo'.
Proof.
  unfold in_sync, registers. intros (U & _ & C).
  rewrite loads_group. cbn [map] in *.
  rewrite !register_writes.
  destruct lo' as [[[w x] y] z]. cbn. auto.
Qed.

Lemma in_sync_actionPB0 (s : state) :
  in_sync (wire s) (upper s) (lower s) ->
  in_sync (wire (actionPB0 s)) (upper (actionPB0 s)) (lower (actionPB0 s)).
Proof.
  rewrite actionPB0_wire, actionPB0_upper, lower_actionPB0.
  apply in_sync_upper.
Qed.

Lemma in_sync_actionPB1 (s : state) :
  in_sync (wire s) (upper s) (lower s) ->
  in_sync (wire (actionPB1 s)) (upper (actionPB1 s)) (lower (actionPB1 s)).
Proof.
  rewrite actionPB1_wire, actionPB1_lower, upper_actionPB1.
  apply in_sync_lower.
Qed.

Lemma in_sync_actionPB01 (s : state) :
  in_sync (wire s) (upper s) (lower s) ->
  in_sync (wire (actionPB01 s)) (upper (actionPB01 s))
          (lower (actionPB01 s)).
Proof.
  rewrite actionPB01_wire, upper_actionPB01, lower_actionPB01, app_assoc.
  intros H. eapply in_sync_lower, in_sync_upper, H.
Qed.

Lemma in_sync_released (s : state) :
  in_sync (wire s) (upper s) (lower s) ->
  in_sync (wire (leave (check_PB01 (check_PB1 (check_PB0 (enter s))))))
          (upper (leave (check_PB01 (check_PB1 (check_PB0 (enter s))))))
          (lower (leave (check_PB01 (check_PB1 (check_PB0 (enter s)))))).
Proof.
  intros H.
  assert (H0 : in_sync (wire (enter s)) (upper (enter s)) (lower (enter s))).
  { destruct (enter_view s) as (Eu & El & Ew). rewrite Eu, El, Ew.
    now apply in_sync_marker. }
  assert (H1 : in_sync (wire (check_PB0 (enter s)))
                 (upper (check_PB0 (enter s))) (lower (check_PB0 (enter s)))).
  { unfold check_PB0. destruct (counterPB0 (enter s) >? 50);
      [now apply in_sync_actionPB0 | exact H0]. }
  set (s1 := check_PB0 (enter s)) in *.
  assert (H2 : in_sync (wire (check_PB1 s1)) (upper (check_PB1 s1))
                 (lower (check_PB1 s1))).
  { unfold check_PB1. destruct (counterPB1 s1 >? 50);
      [now apply in_sync_actionPB1 | exact H1]. }
  set (s2 := check_PB1 s1) in *.
  assert (H3 : in_sync (wire (check_PB01 s2)) (upper (check_PB01 s2))
                 (lower (check_PB01 s2))).
  { unfold check_PB01. destruct (counterPB01 s2 >? 1000);
      [now apply in_sync_actionPB01 | exact H2]. }
  destruct (leave_view (check_PB01 s2)) as (Lu & Ll & Lw).
  rewrite Lu, Ll, Lw. now apply in_sync_marker.
Qed.

Lemma in_sync_ISR (pinb : Z) (s : state) :
  in_sync (wire s) (upper s) (lower s) ->
  in_sync (wire (ISR pinb s)) (upper (ISR pinb s)) (lower (ISR pinb s)).
Proof.
  intros H.
  destruct (Z.eq_dec (Z.land pinb 3) 3) as [E | N].
  - rewrite (ISR_released pinb s E). now apply in_sync_released.
  - destruct (pressed_tick_digits pinb s N) as (U & L).
    rewrite (pressed_tick_wire pinb s N), U, L.
    change [DigitalWrite ISRMKR HIGH; DigitalWrite ISRMKR LOW]
      with ([DigitalWrite ISRMKR HIGH] ++ [DigitalWrite ISRMKR LOW]).
    rewrite app_assoc. now apply in_sync_marker, in_sync_marker.
Qed.

Lemma in_sync_boot : in_sync (wire boot) (upper boot) (lower boot).
Proof. unfold in_sync. vm_compute. repeat split. Qed.

Lemma symbol_sent (d : Z) : is_symbol d = true -> sent d = d.
Proof.
  unfold is_symbol, blank, dash.
  rewrite !orb_true_iff, andb_true_iff, !Z.eqb_eq, !Z.leb_le.
  intros H. apply sent_fits. lia.
Qed.

Lemma symbols_on_display (b : digits) :
  all_symbols b = true ->
  on_display b =
  let '(w, x, y, z) := b in (Some w, Some x, Some y, Some z).
Proof.
  destruct b as [[[w x] y] z]. unfold all_symbols, on_display.
  rewrite !andb_true_iff. intros [[[Hw Hx] Hy] Hz].
  now rewrite !symbol_sent.
Qed.

(** In every state the device can reach, the display driver holds in its
    digit registers 1 to 8 exactly the eight digit globals, so what is lit
    is what the firmware counts; and its decode, intensity, scan limit,
    shutdown and test registers still hold the values [display_init] gave
    them: the firmware never shuts the display down or alters its
    configuration. *)
Theorem display_in_sync (s : state) :
  reachable s ->
  registers 1 (loads (wire s)) =
    (Some (D0 s), Some (D1 s), Some (D2 s), Some (D3 s)) /\
  registers 5 (loads (wire s)) =
    (Some (D4 s), Some (D5 s), Some (D6 s), Some (D7 s)) /\
  register 0x09 (loads (wire s)) = Some 0xFF /\
  register 0x0A (loads (wire s)) = Some 0x0F /\
  register 0x0B (loads (wire s)) = Some 0x07 /\
  register 0x0C (loads (wire s)) = Some 0x01 /\
  register 0x0F (loads (wire s)) = Some 0x00.
Proof.
  intros R.
  pose proof (reachable_ind
                (fun s => in_sync (wire s) (upper s) (lower s))
                in_sync_boot in_sync_ISR s R) as S.
  pose proof (reachable_ind buffers_well_formed
                boot_well_formed ISR_well_formed s R) as W.
  cbv beta in S.
  destruct W as [Wu Wl]. destruct S as (Su & Sl & Sc).
  apply well_formed_symbols, symbols_on_display in Wu, Wl.
  rewrite Su, Sl, Wu, Wl. cbn [map] in Sc.
  injection Sc as C1 C2 C3 C4 C5.
  repeat split; assumption.
Qed.

(** After a counted press of PB0. *)
Lemma display_in_sync_witness :
  registers 1 (loads (wire (run (press (OnlyPB0, 60)) boot))) =
    (Some blank, Some blank, Some blank, Some 1) /\
  registers 5 (loads (wire (run (press (OnlyPB0, 60)) boot))) =
    (Some blank, Some blank, Some blank, Some 0) /\
  register 0x0C (loads (wire (run (press (OnlyPB0, 60)) boot))) = Some 1.
Proof.
  destruct (display_in_sync (run (press (OnlyPB0, 60)) boot))
    as (U & L & _ & _ & _ & C & _).
  - exists (press (OnlyPB0, 60)). reflexivity.
  - split; [exact U|]. split; [exact L | exact C].
Defined.

(** ** What travels on the pins *)

(** Everything the running device drives is made of whole register writes
    and of moves of the timing marker: a property of output histories that
    holds at boot and survives the addition of either holds in every
    reachable state. *)
Lemma traffic_ind (Q : list event -> Prop) :
  Q (wire boot) ->
  (forall l a d, Q l -> Q (l ++ frame a d)) ->
  (forall l v, Q l -> Q (l ++ [DigitalWrite ISRMKR v])) ->
  forall s, reachable s -> Q (wire s).
Proof.
  intros Qb Qf Qm.
  assert (Qg : forall l base b, Q l -> Q (l ++ group base b)).
  { intros l base [[[w x] y] z] H. unfold group.
    rewrite !app_assoc. now apply Qf, Qf, Qf, Qf. }
  assert (Q0 : forall s, Q (wire s) -> Q (wire (check_PB0 s))).
  { intros s H. unfold check_PB0. destruct (counterPB0 s >? 50); [|exact H].
    rewrite actionPB0_wire. now apply Qg. }
  assert (Q1 : forall s, Q (wire s) -> Q (wire (check_PB1 s))).
  { intros s H. unfold check_PB1. destruct (counterPB1 s >? 50); [|exact H].
    rewrite actionPB1_wire. now apply Qg. }
  assert (Q01 : forall s, Q (wire s) -> Q (wire (check_PB01 s))).
  { intros s H. unfold check_PB01.
    destruct (counterPB01 s >? 1000); [|exact H].
    rewrite actionPB01_wire, app_assoc. now apply Qg, Qg. }
  apply (reachable_ind (fun s => Q (wire s))); [exact Qb|].
  intros pinb s H.
  destruct (Z.eq_dec (Z.land pinb 3) 3) as [E | N].
  - rewrite (ISR_released pinb s E).
    destruct (leave_view (check_PB01 (check_PB1 (check_PB0 (enter s)))))
      as (_ & _ & Lw).
    rewrite Lw. apply Qm, Q01, Q1, Q0.
    destruct (enter_view s) as (_ & _ & Ew). rewrite Ew. now apply Qm.
  - rewrite (pressed_tick_wire pinb s N).
    change [DigitalWrite ISRMKR HIGH; DigitalWrite ISRMKR LOW]
      with ([DigitalWrite ISRMKR HIGH] ++ [DigitalWrite ISRMKR LOW]).
    rewrite app_assoc. now apply Qm, Qm.
Qed.

(** In every reachable state the whole output history obeys the bus
    discipline: no byte was ever sent with CS high, every selection carried
    exactly two bytes, and CS is high again (the bus is at rest between
    ticks). *)
Theorem bus_discipline (s : state) :
  reachable s -> fold_left bus_step (wire s) Idle = Idle.
Proof.
  apply (traffic_ind (fun l => fold_left bus_step l Idle = Idle)).
  - vm_compute. reflexivity.
  - intros l a d H. rewrite fold_left_app, H. reflexivity.
  - intros l v H. rewrite fold_left_app, H. destruct v; reflexivity.
Qed.

Lemma bus_discipline_witness :
  fold_left bus_step (wire (run (press (BothButtons, 1001)) boot)) Idle
  = Idle.
Proof.
  apply (bus_discipline (run (press (BothButtons, 1001)) boot)).
  exists (press (BothButtons, 1001)). reflexivity.
Defined.

(** ** How much one tick can send *)

Lemma length_check (s : state) :
  (length (wire s) <= length (wire (check_PB0 s)) <= length (wire s) + 16 /\
   length (wire s) <= length (wire (check_PB1 s)) <= length (wire s) + 16 /\
   length (wire s) <= length (wire (check_PB01 s)) <= length (wire s) + 32)%nat.
Proof.
  destruct (actions_are_visible s) as (A & B & C).
  unfold check_PB0, check_PB1, check_PB01.
  destruct (counterPB0 s >? 50), (counterPB1 s >? 50),
    (counterPB01 s >? 1000); lia.
Qed.

(** One run of the handler drives at least the two moves of the timing
    marker and at most 66 pin and bus events, that is at most sixteen
    register writes (32 bytes): the work done inside the interrupt is
    bounded, whatever the state and the reading. *)
Theorem tick_output_bounded (pinb : Z) (s : state) :
  (length (wire s) + 2 <= length (wire (ISR pinb s)) <=
   length (wire s) + 66)%nat.
Proof.
  destruct (Z.eq_dec (Z.land pinb 3) 3) as [E | N].
  - rewrite (ISR_released pinb s E).
    destruct (leave_view (check_PB01 (check_PB1 (check_PB0 (enter s)))))
      as (_ & _ & Lw).
    destruct (enter_view s) as (_ & _ & Ew).
    destruct (length_check (enter s)) as (A & _ & _).
    destruct (length_check (check_PB0 (enter s))) as (_ & B & _).
    destruct (length_check (check_PB1 (check_PB0 (enter s)))) as (_ & _ & C).
    rewrite Lw, length_app. rewrite Ew, length_app in A.
    cbn [length] in *. lia.
  - rewrite (pressed_tick_wire pinb s N), length_app. cbn [length]. lia.
Qed.
